(** * NBA 2024-2025 player statistics: a model of [parse_and_analyze_stats.py]

    The development embeds the functions of [parse_and_analyze_stats.py]
    ([parse_all_team_files], [percentile], [lower_semideviation] and the
    row-building and sorting part of [main]) and proves the properties the
    specification states about them.

    Modelling conventions.
    - A Python [float] is a real number ([R]): arithmetic is exact.  Rounding,
      overflow, infinities and NaN of binary64 are outside the model.
    - A Python [int] is a [Z]; [len] is [Z.of_nat (length _)].
    - A Python exception is a value [Raise e] of the type [result]; the
      operations of the language that can raise ([/], list indexing,
      [math.sqrt]) return a [result].
    - [None] is the [None] of an [option].
    - A [dict] is an association list in insertion order with unique keys,
      which is the iteration order of [dict.items()].
    - The library parsers [float] and [datetime.strptime] are parameters of
      the parser section; a failure to parse ([ValueError]) is [None]. *)

From Stdlib Require Import String Ascii.
From Stdlib Require Import Reals Lra Lia ZArith Bool List.
From Stdlib Require Import Sorted Permutation DecimalString.
Import ListNotations.

Open Scope R_scope.

(** ** Exceptions *)

Inductive exn : Type :=
| IndexError
| ZeroDivisionError
| ValueError.

Inductive result (A : Type) : Type :=
| Ok (a : A)
| Raise (e : exn).

Arguments Ok {A} a.
Arguments Raise {A} e.

Definition bind {A B : Type} (m : result A) (k : A -> result B) : result B :=
  match m with
  | Ok a => k a
  | Raise e => Raise e
  end.

Notation "x <- m ;; k" := (bind m (fun x => k))
  (at level 61, m at next level, right associativity).

(** ** Operations of the language *)

(** [len(l)] *)
Definition len {A : Type} (l : list A) : Z := Z.of_nat (length l).

(** [l[i]]: a negative index counts from the end; an index outside
    [-len(l) .. len(l)-1] raises [IndexError]. *)
Definition py_getitem {A : Type} (l : list A) (i : Z) : result A :=
  let j := if (i <? 0)%Z then (i + len l)%Z else i in
  if (j <? 0)%Z then Raise IndexError
  else match nth_error l (Z.to_nat j) with
       | Some x => Ok x
       | None => Raise IndexError
       end.

(** [a / b] on floats: a zero divisor raises [ZeroDivisionError]. *)
Definition py_div (a b : R) : result R :=
  if Req_dec_T b 0 then Raise ZeroDivisionError else Ok (a / b).

(** [math.sqrt(x)]: a negative argument raises [ValueError]. *)
Definition py_sqrt (x : R) : result R :=
  if Rlt_dec x 0 then Raise ValueError else Ok (sqrt x).

(** [sum(l)]: the items are added from left to right, starting from [0]. *)
Definition py_sum (l : list R) : R := fold_left Rplus l 0.

(** [a < b] and [a > b] on floats, as booleans. *)
Definition Rltb (a b : R) : bool := if Rlt_dec a b then true else false.
Definition Rgtb (a b : R) : bool := Rltb b a.

(** ** [percentile] *)

Definition percentile (sorted_list : list R) (pct : R) : result (option R) :=
  let n := len sorted_list in
  if (n =? 0)%Z then Ok None
  else if (n =? 1)%Z then
    x <- py_getitem sorted_list 0 ;; Ok (Some x)
  else
    let index := IZR (n - 1) * pct in
    let lower_idx := Zfloor index in
    let upper_idx := Zceil index in
    if (lower_idx =? upper_idx)%Z then
      x <- py_getitem sorted_list lower_idx ;; Ok (Some x)
    else
      lower_val <- py_getitem sorted_list lower_idx ;;
      upper_val <- py_getitem sorted_list upper_idx ;;
      let frac := index - IZR lower_idx in
      Ok (Some (lower_val + (upper_val - lower_val) * frac)).

(** [sorted_list[i]] for an index [i] known to be in range. *)
Definition item (l : list R) (i : Z) : R := nth (Z.to_nat i) l 0.

(** ** [lower_semideviation] *)

Definition lower_semideviation (points : list R) : result R :=
  match points with
  | [] => Ok 0
  | _ :: _ =>
    let n := len points in
    mu <- py_div (py_sum points) (IZR n) ;;
    let below_mean := filter (fun p => Rltb p mu) points in
    if (len below_mean <=? 1)%Z then Ok 0
    else
      let squared_diffs := map (fun p => (mu - p) ^ 2) below_mean in
      semivariance <- py_div (py_sum squared_diffs) (IZR (len below_mean)) ;;
      py_sqrt semivariance
  end.

(** ** Sorting

    [sorted(l)] and [l.sort(key=...)] are the library's stable sort, which
    compares keys with [<] only.  It is modelled by the stable insertion
    sort: an item is placed before the first item of the sorted rest whose
    key is not smaller than its own. *)

Section Sort.
Context {A : Type}.
Variable key : A -> R.

Fixpoint insert_by (x : A) (l : list A) : list A :=
  match l with
  | [] => [x]
  | y :: l' => if Rltb (key y) (key x) then y :: insert_by x l' else x :: l
  end.

Fixpoint sort_by (l : list A) : list A :=
  match l with
  | [] => []
  | x :: l' => insert_by x (sort_by l')
  end.

End Sort.

Definition py_sorted (l : list R) : list R := sort_by (fun x => x) l.

(** ** Dates

    [datetime.strptime(s, "%m/%d/%Y")] gives a [datetime] at midnight, so
    two of them compare by year, then month, then day. *)

Record datetime : Type := mk_datetime { year : Z; month : Z; day : Z }.

Definition datetime_gt (a b : datetime) : bool :=
  (year b <? year a)%Z ||
  ((year a =? year b)%Z &&
   ((month b <? month a)%Z ||
    ((month a =? month b)%Z && (day b <? day a)%Z))).

(** ** The per-player state and the [defaultdict] that holds it *)

Record player_info : Type := mk_info {
  points : list R;
  most_recent_date : option datetime;
  current_team : option string
}.

(** The value of the [lambda] given to [defaultdict]. *)
Definition default_info : player_info :=
  {| points := []; most_recent_date := None; current_team := None |}.

Definition player_dict : Type := list (string * player_info).

Fixpoint dict_get (d : player_dict) (k : string) : option player_info :=
  match d with
  | [] => None
  | (k', v) :: d' => if String.eqb k k' then Some v else dict_get d' k
  end.

(** Assignment to a key: an existing key keeps its place, a new key goes
    to the end. *)
Fixpoint dict_set (d : player_dict) (k : string) (v : player_info)
  : player_dict :=
  match d with
  | [] => [(k, v)]
  | (k', v') :: d' =>
    if String.eqb k k' then (k', v) :: d' else (k', v') :: dict_set d' k v
  end.

(** [player_data[k]] on the [defaultdict]: a missing key is first bound to
    the default value. *)
Definition dd_getitem (d : player_dict) (k : string)
  : player_dict * player_info :=
  match dict_get d k with
  | Some v => (d, v)
  | None => (dict_set d k default_info, default_info)
  end.

(** A mutation [f] of the inner dict reached through [player_data[k]]. *)
Definition dd_update (d : player_dict) (k : string)
  (f : player_info -> player_info) : player_dict :=
  let (d', v) := dd_getitem d k in dict_set d' k (f v).

(** ** Rows of a game log

    A row of [csv.DictReader] is a dict from column names to a string, or
    to [None] for a column the line is too short to reach. *)

Definition csv_row : Type := list (string * option string).

(** [row.get(k)] *)
Fixpoint row_get (row : csv_row) (k : string) : option string :=
  match row with
  | [] => None
  | (k', v) :: row' => if String.eqb k k' then v else row_get row' k
  end.

(** [not s] for [s] a string or [None]. *)
Definition falsy (s : option string) : bool :=
  match s with
  | None => true
  | Some s => String.eqb s ""
  end.

(** A validated row: what the spec calls a GameRecord. *)
Record game_record : Type := mk_game {
  g_player : string;
  g_points : R;
  g_date : datetime;
  g_team : string
}.

Definition DATE_FORMAT : string := "%m/%d/%Y".

(** Lines 54-61: the fold step of the aggregator. *)
Definition record_game (player_data : player_dict) (g : game_record)
  : player_dict :=
  (* player_data[player_name]["points"].append(points) *)
  let d1 :=
    dd_update player_data (g_player g)
      (fun e => {| points := points e ++ [g_points g];
                   most_recent_date := most_recent_date e;
                   current_team := current_team e |}) in
  (* current_recent = player_data[player_name]["most_recent_date"] *)
  let (d2, e2) := dd_getitem d1 (g_player g) in
  let current_recent := most_recent_date e2 in
  if match current_recent with
     | None => true
     | Some current_recent => datetime_gt (g_date g) current_recent
     end
  then
    let d3 :=
      dd_update d2 (g_player g)
        (fun e => {| points := points e;
                     most_recent_date := Some (g_date g);
                     current_team := current_team e |}) in
    dd_update d3 (g_player g)
      (fun e => {| points := points e;
                   most_recent_date := most_recent_date e;
                   current_team := Some (g_team g) |})
  else d2.

(** [s.endswith(suffix)] *)
Definition endswith (s suffix : string) : bool :=
  let n := String.length s in
  let m := String.length suffix in
  (m <=? n)%nat && String.eqb (substring (n - m) m s) suffix.

(** The test of line 29. *)
Definition file_selected (filename : string) : bool :=
  endswith filename ".txt" && (String.length filename =? 7)%nat.

(** A directory: the names [os.listdir] gives, each with the rows its
    reader yields. *)
Definition directory : Type := list (string * list csv_row).

Section Parser.
(** [float(s)] and [datetime.strptime(s, fmt)]; [None] is [ValueError]. *)
Variable py_float : string -> option R.
Variable strptime : string -> string -> option datetime.

(** Lines 34-52: the checks a row passes before anything is stored. *)
Definition parse_row (row : csv_row) : option game_record :=
  let player_name := row_get row "PLAYER" in
  let pts_str := row_get row "PTS" in
  let date_str := row_get row "GAME DATE" in
  let team_str := row_get row "TEAM" in
  if falsy player_name || falsy pts_str || falsy date_str || falsy team_str
  then None
  else
    match player_name, pts_str, date_str, team_str with
    | Some player_name, Some pts_str, Some date_str, Some team_str =>
      match py_float pts_str with
      | None => None
      | Some pts =>
        match strptime date_str DATE_FORMAT with
        | None => None
        | Some game_date =>
          Some {| g_player := player_name; g_points := pts;
                  g_date := game_date; g_team := team_str |}
        end
      end
    | _, _, _, _ => None
    end.

(** The body of [for row in reader]. *)
Definition process_row (player_data : player_dict) (row : csv_row)
  : player_dict :=
  match parse_row row with
  | None => player_data
  | Some g => record_game player_data g
  end.

Definition parse_all_team_files (dir : directory) : player_dict :=
  fold_left
    (fun player_data (f : string * list csv_row) =>
       let (filename, rows) := f in
       if file_selected filename
       then fold_left process_row rows player_data
       else player_data)
    dir [].

End Parser.

(** ** The report rows of [main] *)

Record stat_row : Type := mk_row {
  r_player : string;
  r_team : option string;
  r_mean_pts : R;
  r_std_dev : R;
  r_cv : R;
  r_p10 : option R;
  r_p20 : option R;
  r_p30 : option R;
  r_games_played : Z
}.

(** Line 123. *)
Definition coefficient_of_variation (std_dev mean_pts : R) : result R :=
  if Rgtb (Rabs mean_pts) 1e-9 then py_div std_dev mean_pts else Ok 0.

(** The body of [for player, info in data.items()]: [None] is the
    [continue] of a player without games. *)
Definition build_row (player : string) (info : player_info)
  : result (option stat_row) :=
  let pts_list := points info in
  let current_team := current_team info in
  let games_played := len pts_list in
  if (games_played =? 0)%Z then Ok None
  else
    mean_pts <- py_div (py_sum pts_list) (IZR games_played) ;;
    std_dev <- lower_semideviation pts_list ;;
    cv <- coefficient_of_variation std_dev mean_pts ;;
    let sorted_pts := py_sorted pts_list in
    p10 <- percentile sorted_pts 0.10 ;;
    p20 <- percentile sorted_pts 0.20 ;;
    p30 <- percentile sorted_pts 0.30 ;;
    Ok (Some (mk_row player current_team mean_pts std_dev cv
                     p10 p20 p30 games_played)).

Fixpoint build_results (items : player_dict) : result (list stat_row) :=
  match items with
  | [] => Ok []
  | (player, info) :: rest =>
    r <- build_row player info ;;
    results <- build_results rest ;;
    Ok (match r with
        | Some row => row :: results
        | None => results
        end)
  end.

(** The rows given to the console and to the worksheet. *)
Definition report (data : player_dict) : result (list stat_row) :=
  results <- build_results data ;;
  Ok (sort_by r_std_dev results).

Definition main_rows (py_float : string -> option R)
  (strptime : string -> string -> option datetime) (dir : directory)
  : result (list stat_row) :=
  report (parse_all_team_files py_float strptime dir).

(** ** The sinks of [main]

    The console is the list of the strings given to [print]; the worksheet
    is the list of the calls [worksheet.write(row, col, value)].  The
    formatting of a float ([format(x, "5.1f")]) and [round(x, 1)] are the
    library's and are parameters; an f-string field that formats [None]
    with a width raises [TypeError]. *)

Inductive py_value : Type :=
| PyStr (s : string)
| PyFloat (x : R)
| PyInt (z : Z)
| PyNone.

Definition write_call : Type := (Z * Z * py_value)%type.

Definition spaces (n : nat) : string := string_of_list_ascii (repeat " "%char n).

(** [format(s, "<width>s")]: the string, then spaces up to the width. *)
Definition format_str (s : string) (width : nat) : string :=
  (s ++ spaces (width - String.length s))%string.

(** [format(s, "><width>s")]: spaces up to the width, then the string. *)
Definition format_str_right (s : string) (width : nat) : string :=
  (spaces (width - String.length s) ++ s)%string.

(** [format(z, "<width>d")] *)
Definition format_int (z : Z) (width : nat) : string :=
  format_str_right (NilZero.string_of_int (Z.to_int z)) width.

Definition headers : list string :=
  ["Player"; "Current Team"; "PPG"; "Std Dev"; "CV"; "10th Pctl";
   "20th Pctl"; "30th Pctl"; "Games"]%string.

(** [enumerate(l)], counting from [start]. *)
Fixpoint enumerate_from {A : Type} (start : Z) (l : list A) : list (Z * A) :=
  match l with
  | [] => []
  | x :: l' => (start, x) :: enumerate_from (start + 1) l'
  end.

Definition export_message : string :=
  String (ascii_of_nat 10) "Data exported to player_stats.xlsx".

Record sink_effects : Type := mk_effects {
  printed : list string;
  worksheet_calls : option (list write_call)
}.

Section Sinks.
(** [format(x, "<width>.<precision>f")] and [round(x, ndigits)]. *)
Variable format_float : R -> nat -> nat -> string.
Variable py_round : R -> Z -> R.

(** Line 136. *)
Definition header_line : string :=
  (format_str "Player" 25 ++ "  " ++ format_str "Team" 5 ++ "  "
   ++ format_str_right "PPG" 5 ++ "  " ++ format_str_right "StdDev" 6 ++ "  "
   ++ format_str_right "CV" 4 ++ "  " ++ format_str_right "P10" 5 ++ "  "
   ++ format_str_right "P20" 5 ++ "  " ++ format_str_right "P30" 5 ++ "  "
   ++ format_str_right "Games" 5)%string.

(** Line 137. *)
Definition separator_line : string := string_of_list_ascii (repeat "-"%char 90).

(** Lines 139-147: the f-string of a row; [None] is [TypeError]. *)
Definition format_row (r : stat_row) : option string :=
  match r_team r, r_p10 r, r_p20 r, r_p30 r with
  | Some team, Some p10, Some p20, Some p30 =>
    Some (format_str (r_player r) 25 ++ "  " ++ format_str team 5 ++ "  "
          ++ format_float (r_mean_pts r) 5 1 ++ "  "
          ++ format_float (r_std_dev r) 6 1 ++ "  "
          ++ format_float (r_cv r) 4 1 ++ "  "
          ++ format_float p10 5 1 ++ "  " ++ format_float p20 5 1 ++ "  "
          ++ format_float p30 5 1 ++ "  "
          ++ format_int (r_games_played r) 5)%string
  | _, _, _, _ => None
  end.

(** Lines 138-147: the lines printed, and whether the loop came to its
    end ([false]: a [TypeError] left it). *)
Fixpoint print_rows (results : list stat_row) : list string * bool :=
  match results with
  | [] => ([], true)
  | r :: rest =>
    match format_row r with
    | None => ([], false)
    | Some line =>
      let (lines, ok) := print_rows rest in (line :: lines, ok)
    end
  end.

(** [round(p, 1) if p is not None else None] *)
Definition round_or_none (p : option R) : py_value :=
  match p with
  | Some x => PyFloat (py_round x 1)
  | None => PyNone
  end.

Definition str_or_none (s : option string) : py_value :=
  match s with
  | Some s => PyStr s
  | None => PyNone
  end.

(** The values of lines 159-167, in the order of the columns. *)
Definition row_values (r : stat_row) : list py_value :=
  [PyStr (r_player r); str_or_none (r_team r);
   PyFloat (py_round (r_mean_pts r) 1); PyFloat (py_round (r_std_dev r) 1);
   PyFloat (py_round (r_cv r) 1); round_or_none (r_p10 r);
   round_or_none (r_p20 r); round_or_none (r_p30 r);
   PyInt (r_games_played r)].

(** Lines 159-167. *)
Definition write_row (row : Z) (r : stat_row) : list write_call :=
  [(row, 0, PyStr (r_player r)); (row, 1, str_or_none (r_team r));
   (row, 2, PyFloat (py_round (r_mean_pts r) 1));
   (row, 3, PyFloat (py_round (r_std_dev r) 1));
   (row, 4, PyFloat (py_round (r_cv r) 1));
   (row, 5, round_or_none (r_p10 r)); (row, 6, round_or_none (r_p20 r));
   (row, 7, round_or_none (r_p30 r)); (row, 8, PyInt (r_games_played r))]%Z.

(** Lines 157-168: the loop with its counter [row]. *)
Fixpoint write_rows (row : Z) (results : list stat_row) : list write_call :=
  match results with
  | [] => []
  | r :: rest => write_row row r ++ write_rows (row + 1) rest
  end.

(** Lines 153-168. *)
Definition export (results : list stat_row) : list write_call :=
  map (fun ch : Z * string => (0%Z, fst ch, PyStr (snd ch)))
      (enumerate_from 0 headers)
  ++ write_rows 1 results.

(** Lines 135-171: a [TypeError] of the console loop ends [main] before
    the workbook is created. *)
Definition run_sinks (results : list stat_row) : sink_effects :=
  let (lines, ok) := print_rows results in
  if ok
  then {| printed := header_line :: separator_line :: lines ++ [export_message];
          worksheet_calls := Some (export results) |}
  else {| printed := header_line :: separator_line :: lines;
          worksheet_calls := None |}.

End Sinks.

(** ** Vocabulary of the statements *)

(** The state of a player in the dict, or the default state. *)
Definition entry (d : player_dict) (k : string) : player_info :=
  match dict_get d k with
  | Some e => e
  | None => default_info
  end.

(** The test of line 59. *)
Definition is_newer (game_date : datetime) (current_recent : option datetime)
  : bool :=
  match current_recent with
  | None => true
  | Some current_recent => datetime_gt game_date current_recent
  end.

(** The records of one player, in the order they are met. *)
Definition records_of (player : string) (records : list game_record)
  : list game_record :=
  filter (fun g => String.eqb (g_player g) player) records.

(** Ascending order of the keys. *)
Definition key_le {A : Type} (key : A -> R) (a b : A) : Prop :=
  key a <= key b.

(** The items of a list whose key is [k], in their order. *)
Definition with_key {A : Type} (key : A -> R) (k : R) (l : list A) : list A :=
  filter (fun x => if Req_dec_T (key x) k then true else false) l.

(** The state of a player who has a game: points, a date and a team. *)
Definition has_game (e : player_info) : Prop :=
  points e <> [] /\ most_recent_date e <> None /\ current_team e <> None.

(** The keys are distinct and every player of the dict has a game. *)
Definition well_formed (d : player_dict) : Prop :=
  NoDup (map fst d) /\
  forall (k : string) (e : player_info), dict_get d k = Some e -> has_game e.

(** ** Two parsers and a directory for the examples

    The theorems hold for any [float] and any [strptime].  The examples
    run the parser with a reader of unsigned decimal integers and a reader
    of dates written with two digits, two digits and four digits; the
    parsers of the library accept more strings than these two. *)

Definition digit_of (c : ascii) : option Z :=
  let n := nat_of_ascii c in
  if (48 <=? n)%nat && (n <=? 57)%nat then Some (Z.of_nat (n - 48)) else None.

Fixpoint digits_value (acc : Z) (s : string) : option Z :=
  match s with
  | EmptyString => Some acc
  | String c s' =>
    match digit_of c with
    | Some d => digits_value (10 * acc + d)%Z s'
    | None => None
    end
  end.

Definition example_float (s : string) : option R :=
  match s with
  | EmptyString => None
  | String _ _ => option_map IZR (digits_value 0 s)
  end.

Definition example_strptime (s fmt : string) : option datetime :=
  if String.eqb fmt "%m/%d/%Y" && (String.length s =? 10)%nat
     && String.eqb (substring 2 1 s) "/" && String.eqb (substring 5 1 s) "/"
  then
    match digits_value 0 (substring 0 2 s), digits_value 0 (substring 3 2 s),
          digits_value 0 (substring 6 4 s) with
    | Some m, Some d, Some y =>
      if ((1 <=? m) && (m <=? 12) && (1 <=? d) && (d <=? 31) && (1 <=? y))%Z
      then Some (mk_datetime y m d)
      else None
    | _, _, _ => None
    end
  else None.

Definition example_row (player pts date team : string) : csv_row :=
  [("PLAYER", Some player); ("TEAM", Some team); ("GAME DATE", Some date);
   ("PTS", Some pts)]%string.

Definition example_directory : directory :=
  [("ATL.txt",
    [example_row "Trae Young" "30" "01/01/2024" "ATL";
     example_row "Trae Young" "DNP" "01/03/2024" "ATL";
     example_row "Dejounte Murray" "18" "01/01/2024" "ATL"]);
   ("NOP.txt",
    [example_row "Dejounte Murray" "22" "01/05/2024" "NOP";
     example_row "Dejounte Murray" "" "01/07/2024" "NOP"]);
   ("ATLX.txt",
    [example_row "Nobody" "50" "01/01/2024" "ATL"])]%string.

(** ** Vocabulary of the further properties *)

(** The place in a list of length [n] that the index [i] reads: a negative
    index counts from the end. *)
Definition wrap_index (n i : Z) : Z := if (i <? 0)%Z then (i + n)%Z else i.

(** The value [percentile] returns for a fraction in [0,1], on a list of at
    least two items. *)
Definition interpolated (l : list R) (p : R) : R :=
  let idx := IZR (len l - 1) * p in
  if (Zfloor idx =? Zceil idx)%Z then item l (Zfloor idx)
  else item l (Zfloor idx)
       + (item l (Zceil idx) - item l (Zfloor idx)) * (idx - IZR (Zfloor idx)).

(** The first of the records with the greatest date, starting from
    [best]. *)
Fixpoint latest_from (best : game_record) (records : list game_record)
  : game_record :=
  match records with
  | [] => best
  | g :: rest =>
    latest_from (if datetime_gt (g_date g) (g_date best) then g else best) rest
  end.

Definition latest (records : list game_record) : option game_record :=
  match records with
  | [] => None
  | g :: rest => Some (latest_from g rest)
  end.

(** The distinct names of a list, each at the place it is first met. *)
Fixpoint first_seen (names : list string) : list string :=
  match names with
  | [] => []
  | x :: rest => x :: filter (fun y => negb (String.eqb y x)) (first_seen rest)
  end.

(** The number of games stored in a dict, all players together. *)
Definition total_games (d : player_dict) : nat :=
  list_sum (map (fun e => length (points (snd e))) d).

(** The records of the rows of a file that pass the checks, in the order
    of the rows. *)
Definition records_of_rows (py_float : string -> option R)
  (strptime : string -> string -> option datetime) (rows : list csv_row)
  : list game_record :=
  flat_map (fun row => match parse_row py_float strptime row with
                       | Some g => [g]
                       | None => []
                       end) rows.

(** The records of the selected files of a directory, in the order of the
    listing. *)
Definition records_of_directory (py_float : string -> option R)
  (strptime : string -> string -> option datetime) (dir : directory)
  : list game_record :=
  flat_map (fun f : string * list csv_row =>
              if file_selected (fst f)
              then records_of_rows py_float strptime (snd f)
              else []) dir.

(** A row in which the team and the three percentiles are not [None]. *)
Definition row_complete (r : stat_row) : bool :=
  match r_team r, r_p10 r, r_p20 r, r_p30 r with
  | Some _, Some _, Some _, Some _ => true
  | _, _, _, _ => false
  end.

(** The value of the first call that writes the cell [(row, col)]. *)
Definition written_at (calls : list write_call) (row col : Z)
  : option py_value :=
  option_map snd
    (find (fun c : write_call =>
             (fst (fst c) =? row)%Z && (snd (fst c) =? col)%Z) calls).

(** The cell of a call. *)
Definition call_cell (c : write_call) : Z * Z := fst c.

(** The cells of the rows [0 .. rows-1] and the columns [0 .. cols-1], row
    after row. *)
Definition grid (rows cols : nat) : list (Z * Z) :=
  flat_map (fun r => map (fun c => (Z.of_nat r, Z.of_nat c)) (seq 0 cols))
           (seq 0 rows).

(** * Properties of [percentile] *)

Lemma py_getitem_in_range (l : list R) (i : Z) :
  (0 <= i < len l)%Z -> py_getitem l i = Ok (item l i).
Proof.
  intros [H0 Hn]. unfold py_getitem, item, len in *.
  destruct (i <? 0)%Z eqn:E; [apply Z.ltb_lt in E; lia|].
  rewrite E.
  destruct (nth_error l (Z.to_nat i)) eqn:N.
  - now rewrite (nth_error_nth _ _ _ N).
  - apply nth_error_None in N. lia.
Qed.

Lemma Zfloor_le_Zceil (x : R) : (Zfloor x <= Zceil x)%Z.
Proof.
  unfold Zceil.
  pose proof (Zfloor_bound x) as Hx.
  pose proof (Zfloor_bound (- x)) as Hn.
  apply le_IZR. rewrite opp_IZR. lra.
Qed.

(** The two ranks of [percentile] are in range for a fraction in [0,1]. *)
Lemma ranks_in_range (n : Z) (p : R) :
  (1 <= n)%Z -> 0 <= p <= 1 ->
  (0 <= Zfloor (IZR (n - 1) * p) /\
   Zfloor (IZR (n - 1) * p) <= Zceil (IZR (n - 1) * p) /\
   Zceil (IZR (n - 1) * p) <= n - 1)%Z.
Proof.
  intros Hn [Hp0 Hp1].
  assert (Hm : 0 <= IZR (n - 1)) by (apply IZR_le; lia).
  assert (Hlo : 0 <= IZR (n - 1) * p) by nra.
  assert (Hhi : IZR (n - 1) * p <= IZR (n - 1)) by nra.
  split; [|split].
  - apply Zfloor_lub. exact Hlo.
  - apply Zfloor_le_Zceil.
  - unfold Zceil.
    assert (n - 1 = - (- (n - 1)))%Z as E by lia.
    rewrite E at 2. apply (proj1 (Z.opp_le_mono _ _)).
    apply Zfloor_lub. rewrite opp_IZR. lra.
Qed.

Lemma Sorted_item_le (l : list R) :
  Sorted Rle l ->
  forall i j : Z, (0 <= i <= j)%Z -> (j < len l)%Z -> item l i <= item l j.
Proof.
  intros HS. apply Sorted_StronglySorted in HS; [|intros x y z; apply Rle_trans].
  unfold item, len.
  induction HS as [|a l HS IH Hall]; intros i j Hij Hj.
  - simpl in Hj. lia.
  - destruct (Z.to_nat i) as [|i'] eqn:Ei; destruct (Z.to_nat j) as [|j'] eqn:Ej;
      simpl.
    + lra.
    + rewrite Forall_forall in Hall. apply Hall. apply nth_In.
      simpl length in Hj. lia.
    + lia.
    + specialize (IH (Z.of_nat i') (Z.of_nat j')).
      rewrite !Nat2Z.id in IH. apply IH; simpl length in Hj; lia.
Qed.

Lemma len_nonneg {A : Type} (l : list A) : (0 <= len l)%Z.
Proof. unfold len. lia. Qed.

Lemma len_nil_iff {A : Type} (l : list A) : len l = 0%Z <-> l = [].
Proof.
  unfold len. destruct l; simpl; split; intros H; try reflexivity;
    try discriminate; lia.
Qed.

(** What [percentile] computes on a list of at least two items. *)
Lemma percentile_two_or_more (l : list R) (p : R) :
  (2 <= len l)%Z -> 0 <= p <= 1 ->
  let idx := IZR (len l - 1) * p in
  percentile l p =
  Ok (Some (if (Zfloor idx =? Zceil idx)%Z then item l (Zfloor idx)
            else item l (Zfloor idx)
                 + (item l (Zceil idx) - item l (Zfloor idx))
                   * (idx - IZR (Zfloor idx)))).
Proof.
  intros Hn Hp idx. unfold percentile.
  destruct (len l =? 0)%Z eqn:E0; [apply Z.eqb_eq in E0; lia|].
  destruct (len l =? 1)%Z eqn:E1; [apply Z.eqb_eq in E1; lia|].
  destruct (ranks_in_range (len l) p ltac:(lia) Hp) as (Hlo & Hmid & Hhi).
  fold idx in Hlo, Hmid, Hhi |- *.
  rewrite !py_getitem_in_range by lia.
  destruct (Zfloor idx =? Zceil idx)%Z; reflexivity.
Qed.

(** C1. For a fraction [p] in [0,1], [percentile] returns [None] on the
    empty list, the sole item of a list of length 1 and, on a longer list,
    with [idx = (n-1)*p], [lo = floor idx] and [hi = ceil idx], the item
    [sorted[lo]] when [lo = hi] and
    [sorted[lo] + (sorted[hi] - sorted[lo]) * (idx - lo)] otherwise; it
    never raises.  The list need not be sorted for this.  The examples of
    the specification follow: [percentile([10,20,30,40], 0.1) = 13],
    [percentile([10,20], 0.5) = 15], [percentile([10], p) = 10] and
    [percentile([], p) = None]. *)
Theorem percentile_spec :
  (forall (l : list R) (p : R), 0 <= p <= 1 ->
     let n := len l in
     let idx := IZR (n - 1) * p in
     let lo := Zfloor idx in
     let hi := Zceil idx in
     (n = 0%Z -> percentile l p = Ok None) /\
     (n = 1%Z -> percentile l p = Ok (Some (item l 0))) /\
     ((2 <= n)%Z -> lo = hi -> percentile l p = Ok (Some (item l lo))) /\
     ((2 <= n)%Z -> lo <> hi ->
      percentile l p =
      Ok (Some (item l lo + (item l hi - item l lo) * (idx - IZR lo))))) /\
  percentile [10; 20; 30; 40] 0.1 = Ok (Some 13) /\
  percentile [10; 20] 0.5 = Ok (Some 15) /\
  (forall p : R, percentile [10] p = Ok (Some 10)) /\
  (forall p : R, percentile [] p = Ok None).
Proof.
  assert (G : forall (l : list R) (p : R), 0 <= p <= 1 ->
     let n := len l in
     let idx := IZR (n - 1) * p in
     let lo := Zfloor idx in
     let hi := Zceil idx in
     (n = 0%Z -> percentile l p = Ok None) /\
     (n = 1%Z -> percentile l p = Ok (Some (item l 0))) /\
     ((2 <= n)%Z -> lo = hi -> percentile l p = Ok (Some (item l lo))) /\
     ((2 <= n)%Z -> lo <> hi ->
      percentile l p =
      Ok (Some (item l lo + (item l hi - item l lo) * (idx - IZR lo))))).
  { intros l p Hp n idx lo hi. repeat split.
    - intros Hn. unfold percentile. fold n. now rewrite Hn.
    - intros Hn. unfold percentile. fold n. rewrite Hn. simpl.
      rewrite py_getitem_in_range by (fold n; lia). reflexivity.
    - intros Hn Heq. rewrite (percentile_two_or_more l p Hn Hp).
      fold n idx lo hi. apply Z.eqb_eq in Heq. now rewrite Heq.
    - intros Hn Hne. rewrite (percentile_two_or_more l p Hn Hp).
      fold n idx lo hi. apply Z.eqb_neq in Hne. now rewrite Hne. }
  split; [exact G|]. repeat split.
  - destruct (G [10; 20; 30; 40] 0.1 ltac:(lra)) as (_ & _ & _ & H).
    cbv zeta in H. change (len [10; 20; 30; 40]) with 4%Z in H.
    change (4 - 1)%Z with 3%Z in H.
    assert (F : Zfloor (3 * 0.1) = 0%Z) by (apply Zfloor_eq; lra).
    assert (C : Zceil (3 * 0.1) = 1%Z) by (apply Zceil_eq; lra).
    rewrite F, C in H. rewrite H by lia.
    unfold item. simpl. do 2 f_equal. lra.
  - destruct (G [10; 20] 0.5 ltac:(lra)) as (_ & _ & _ & H).
    cbv zeta in H. change (len [10; 20]) with 2%Z in H.
    change (2 - 1)%Z with 1%Z in H.
    assert (F : Zfloor (1 * 0.5) = 0%Z) by (apply Zfloor_eq; lra).
    assert (C : Zceil (1 * 0.5) = 1%Z) by (apply Zceil_eq; lra).
    rewrite F, C in H. rewrite H by lia.
    unfold item. simpl. do 2 f_equal. lra.
Qed.



Lemma percentile_spec_witness :
  percentile [10; 20; 30] 0.5 = Ok (Some 20).
Proof.
  destruct (proj1 percentile_spec [10; 20; 30] 0.5 ltac:(lra))
    as (_ & _ & H & _).
  cbv zeta in H. change (len [10; 20; 30]) with 3%Z in H.
  change (3 - 1)%Z with 2%Z in H.
  assert (F : Zfloor (2 * 0.5) = 1%Z) by (apply Zfloor_eq; lra).
  assert (C : Zceil (2 * 0.5) = 1%Z) by (apply Zceil_eq; lra).
  rewrite F, C in H. rewrite H by lia. reflexivity.
Defined.

(** * Properties of [lower_semideviation] *)

Lemma Rltb_true_iff (a b : R) : Rltb a b = true <-> a < b.
Proof. unfold Rltb. destruct (Rlt_dec a b); split; intros; try easy. Qed.

Lemma Rltb_false_iff (a b : R) : Rltb a b = false <-> b <= a.
Proof.
  unfold Rltb. destruct (Rlt_dec a b); split; intros; try easy; lra.
Qed.

Lemma fold_left_Rplus_acc (l : list R) (a : R) :
  fold_left Rplus l a = a + fold_left Rplus l 0.
Proof.
  revert a. induction l as [|x l IH]; intros a; simpl.
  - lra.
  - rewrite IH. rewrite (IH (0 + x)). lra.
Qed.

Lemma py_sum_cons (x : R) (l : list R) : py_sum (x :: l) = x + py_sum l.
Proof. unfold py_sum. simpl. rewrite fold_left_Rplus_acc. lra. Qed.

Lemma py_sum_nonneg (l : list R) :
  (forall x, In x l -> 0 <= x) -> 0 <= py_sum l.
Proof.
  induction l as [|x l IH]; intros H.
  - unfold py_sum. simpl. lra.
  - rewrite py_sum_cons.
    assert (0 <= x) by (apply H; now left).
    assert (0 <= py_sum l) by (apply IH; intros y Hy; apply H; now right).
    lra.
Qed.

Lemma py_div_nonzero (a b : R) : b <> 0 -> py_div a b = Ok (a / b).
Proof. intros H. unfold py_div. now destruct (Req_dec_T b 0). Qed.

Lemma py_sqrt_nonneg (x : R) : 0 <= x -> py_sqrt x = Ok (sqrt x).
Proof. intros H. unfold py_sqrt. destruct (Rlt_dec x 0); [lra | easy]. Qed.

Lemma IZR_len_pos {A : Type} (l : list A) : l <> [] -> 0 < IZR (len l).
Proof.
  intros H. apply IZR_lt. pose proof (len_nonneg l).
  pose proof (len_nil_iff l). destruct (Z.eq_dec (len l) 0); [tauto | lia].
Qed.

(** The mean of the squared deviations of a non-empty list is not
    negative, so [math.sqrt] does not raise on it. *)
Lemma semivariance_nonneg (mu : R) (B : list R) :
  (0 < len B)%Z ->
  0 <= py_sum (map (fun p => (mu - p) ^ 2) B) / IZR (len B).
Proof.
  intros HB. apply Rmult_le_pos.
  - apply py_sum_nonneg. intros x Hx. apply in_map_iff in Hx.
    destruct Hx as (b & <- & _). apply pow2_ge_0.
  - apply Rlt_le, Rinv_0_lt_compat, IZR_lt, HB.
Qed.

(** What [lower_semideviation] computes on a non-empty list. *)
Lemma lower_semideviation_nonempty (points : list R) :
  points <> [] ->
  let mu := py_sum points / IZR (len points) in
  let B := filter (fun p => Rltb p mu) points in
  lower_semideviation points =
  Ok (if (len B <=? 1)%Z then 0
      else sqrt (py_sum (map (fun b => (mu - b) ^ 2) B) / IZR (len B))).
Proof.
  intros Hne mu B. unfold lower_semideviation.
  destruct points as [|x points']; [contradiction|].
  set (points := x :: points') in *.
  rewrite py_div_nonzero
    by (pose proof (IZR_len_pos points Hne); lra).
  cbn [bind]. fold mu. fold B.
  destruct (len B <=? 1)%Z eqn:E; [reflexivity|].
  apply Z.leb_gt in E.
  rewrite py_div_nonzero
    by (assert (0 < IZR (len B)) by (apply IZR_lt; lia); lra).
  cbn [bind]. apply py_sqrt_nonneg, semivariance_nonneg. lia.
Qed.


(** * Properties of the aggregator *)

Lemma dict_get_set (d : player_dict) (k k' : string) (v : player_info) :
  dict_get (dict_set d k v) k' =
  if String.eqb k' k then Some v else dict_get d k'.
Proof.
  induction d as [|[k0 v0] d IH]; simpl.
  - reflexivity.
  - destruct (String.eqb_spec k k0) as [->|Hk]; simpl.
    + now destruct (String.eqb k' k0).
    + rewrite IH.
      destruct (String.eqb_spec k' k0) as [->|Hk'].
      * destruct (String.eqb_spec k0 k); [congruence | reflexivity].
      * reflexivity.
Qed.

Lemma dict_get_dd_getitem (d : player_dict) (k k' : string) :
  snd (dd_getitem d k) = entry d k /\
  dict_get (fst (dd_getitem d k)) k' =
  if String.eqb k' k then Some (entry d k) else dict_get d k'.
Proof.
  unfold dd_getitem, entry.
  destruct (dict_get d k) as [e|] eqn:E; simpl; split; try reflexivity.
  - destruct (String.eqb_spec k' k) as [->|]; [exact E | reflexivity].
  - apply dict_get_set.
Qed.

Lemma dict_get_dd_update (d : player_dict) (k k' : string)
  (f : player_info -> player_info) :
  dict_get (dd_update d k f) k' =
  if String.eqb k' k then Some (f (entry d k)) else dict_get d k'.
Proof.
  unfold dd_update.
  destruct (dict_get_dd_getitem d k k') as [H1 H2].
  destruct (dd_getitem d k) as [d' v]. simpl in H1, H2. subst v.
  rewrite dict_get_set, H2. now destruct (String.eqb k' k).
Qed.

Lemma entry_dd_update (d : player_dict) (k : string)
  (f : player_info -> player_info) :
  entry (dd_update d k f) k = f (entry d k).
Proof. unfold entry at 1. now rewrite dict_get_dd_update, String.eqb_refl. Qed.

(** One fold step, seen from any key of the dict. *)
Lemma dict_get_record_game (pd : player_dict) (g : game_record) (k : string) :
  dict_get (record_game pd g) k =
  if String.eqb k (g_player g) then
    let e := entry pd (g_player g) in
    let newer := is_newer (g_date g) (most_recent_date e) in
    Some {| points := points e ++ [g_points g];
            most_recent_date :=
              if newer then Some (g_date g) else most_recent_date e;
            current_team :=
              if newer then Some (g_team g) else current_team e |}
  else dict_get pd k.
Proof.
  unfold record_game.
  set (name := g_player g).
  set (app := fun e : player_info => _).
  set (d1 := dd_update pd name app).
  assert (H : forall k', snd (dd_getitem d1 name) = entry d1 name /\
                         dict_get (fst (dd_getitem d1 name)) k' =
                         if String.eqb k' name then Some (entry d1 name)
                         else dict_get d1 k')
    by (intros k'; apply dict_get_dd_getitem).
  destruct (dd_getitem d1 name) as [d2 e2]. simpl in H.
  destruct (H k) as [H1 H2]. destruct (H name) as [_ H3]. clear H. subst e2.
  assert (E1 : entry d1 name = app (entry pd name))
    by apply entry_dd_update.
  assert (G2 : dict_get d2 k =
               if String.eqb k name then Some (app (entry pd name))
               else dict_get pd k).
  { rewrite H2, E1. unfold d1. rewrite dict_get_dd_update.
    now destruct (String.eqb k name). }
  assert (E2 : entry d2 name = app (entry pd name)).
  { unfold entry at 1. rewrite H3, String.eqb_refl. exact E1. }
  rewrite E1. cbv zeta.
  change (most_recent_date (app (entry pd name)))
    with (most_recent_date (entry pd name)).
  fold (is_newer (g_date g) (most_recent_date (entry pd name))).
  destruct (is_newer (g_date g) (most_recent_date (entry pd name))).
  - rewrite dict_get_dd_update, entry_dd_update, dict_get_dd_update, E2.
    destruct (String.eqb k name); [reflexivity | exact G2 ].
  - rewrite G2. destruct (String.eqb k name); [|reflexivity].
    unfold app. reflexivity.
Qed.

Lemma entry_record_game (pd : player_dict) (g : game_record) (k : string) :
  entry (record_game pd g) k =
  if String.eqb k (g_player g) then
    let e := entry pd (g_player g) in
    let newer := is_newer (g_date g) (most_recent_date e) in
    {| points := points e ++ [g_points g];
       most_recent_date :=
         if newer then Some (g_date g) else most_recent_date e;
       current_team :=
         if newer then Some (g_team g) else current_team e |}
  else entry pd k.
Proof.
  unfold entry at 1. rewrite dict_get_record_game.
  destruct (String.eqb k (g_player g)); reflexivity.
Qed.

(** [datetime_gt a b] is the strict order of the dates: by year, then by
    month, then by day. *)
Lemma datetime_gt_spec (a b : datetime) :
  datetime_gt a b = true <->
  (year b < year a \/
   (year a = year b /\
    (month b < month a \/ (month a = month b /\ day b < day a))))%Z.
Proof.
  unfold datetime_gt.
  rewrite !orb_true_iff, !andb_true_iff, !orb_true_iff, !andb_true_iff,
    !Z.ltb_lt, !Z.eqb_eq.
  tauto.
Qed.

Lemma datetime_gt_irrefl (d : datetime) : datetime_gt d d = false.
Proof.
  unfold datetime_gt. rewrite !Z.ltb_irrefl, !Z.eqb_refl. reflexivity.
Qed.

Lemma points_fold_record_game (records : list game_record) :
  forall (pd : player_dict) (k : string),
    points (entry (fold_left record_game records pd) k) =
    points (entry pd k) ++ map g_points (records_of k records).
Proof.
  induction records as [|g records IH]; intros pd k; simpl.
  - now rewrite app_nil_r.
  - rewrite IH, entry_record_game, (String.eqb_sym (g_player g) k).
    destruct (String.eqb_spec k (g_player g)) as [->|Hk]; simpl.
    + now rewrite <- app_assoc.
    + reflexivity.
Qed.

Lemma dict_get_fold_record_game (records : list game_record) :
  forall (pd : player_dict) (k : string),
    dict_get (fold_left record_game records pd) k = None <->
    dict_get pd k = None /\ records_of k records = [].
Proof.
  induction records as [|g records IH]; intros pd k; simpl.
  - tauto.
  - rewrite IH, dict_get_record_game, (String.eqb_sym (g_player g) k).
    destruct (String.eqb k (g_player g)); simpl.
    + split; [intros [H _]; discriminate | intros [_ H]; discriminate].
    + tauto.
Qed.

(** C3. Folding valid records with the aggregator appends the points of
    every record to its player's list, so that the list holds the points
    of the player's records in the order they are met and the number of
    games is the number of these records; a step replaces the stored date
    and team together exactly when no date is stored or the date of the
    record is strictly greater than the stored one, leaves both as they
    are otherwise (in particular for a date equal to the stored one), and
    leaves the other players as they are.  Two records of one player dated
    01/01/2024 (team A) and 01/05/2024 (team B) give team B, both points
    and two games, in either order of arrival. *)
Theorem aggregator_spec :
  (forall (records : list game_record) (player : string),
     let data := fold_left record_game records [] in
     points (entry data player) = map g_points (records_of player records) /\
     len (points (entry data player)) = len (records_of player records) /\
     (dict_get data player = None <-> records_of player records = [])) /\
  (forall (pd : player_dict) (g : game_record),
     let e := entry pd (g_player g) in
     let e' := entry (record_game pd g) (g_player g) in
     points e' = points e ++ [g_points g] /\
     (most_recent_date e = None ->
      most_recent_date e' = Some (g_date g) /\
      current_team e' = Some (g_team g)) /\
     (forall d : datetime,
        most_recent_date e = Some d -> datetime_gt (g_date g) d = true ->
        most_recent_date e' = Some (g_date g) /\
        current_team e' = Some (g_team g)) /\
     (forall d : datetime,
        most_recent_date e = Some d -> datetime_gt (g_date g) d = false ->
        most_recent_date e' = Some d /\ current_team e' = current_team e) /\
     (most_recent_date e = Some (g_date g) ->
      most_recent_date e' = Some (g_date g) /\
      current_team e' = current_team e) /\
     (forall k : string,
        k <> g_player g -> dict_get (record_game pd g) k = dict_get pd k)) /\
  (forall (player : string) (x y : R),
     let g1 := mk_game player x (mk_datetime 2024 1 1) "A" in
     let g2 := mk_game player y (mk_datetime 2024 1 5) "B" in
     dict_get (fold_left record_game [g1; g2] []) player =
     Some (mk_info [x; y] (Some (mk_datetime 2024 1 5)) (Some "B"%string)) /\
     dict_get (fold_left record_game [g2; g1] []) player =
     Some (mk_info [y; x] (Some (mk_datetime 2024 1 5)) (Some "B"%string)) /\
     len (points (entry (fold_left record_game [g1; g2] []) player)) = 2%Z).
Proof.
  split; [|split].
  - intros records player data. unfold data.
    rewrite points_fold_record_game. simpl. split; [reflexivity|].
    split.
    + unfold len. now rewrite length_map.
    + rewrite dict_get_fold_record_game. simpl. tauto.
  - intros pd g e e'. unfold e'. rewrite entry_record_game, String.eqb_refl.
    fold e. cbv zeta. simpl. split; [reflexivity|].
    split; [|split; [|split; [|split]]].
    + intros ->. simpl. auto.
    + intros d -> Hgt. simpl. rewrite Hgt. auto.
    + intros d -> Hgt. simpl. rewrite Hgt. auto.
    + intros ->. simpl. rewrite datetime_gt_irrefl. auto.
    + intros k Hk. rewrite dict_get_record_game.
      destruct (String.eqb_spec k (g_player g)); [contradiction | reflexivity].
  - intros player x y g1 g2. simpl fold_left.
    assert (E : forall g, entry (record_game [] g) (g_player g) =
              mk_info [g_points g] (Some (g_date g)) (Some (g_team g))).
    { intros g. rewrite entry_record_game, String.eqb_refl. reflexivity. }
    split; [|split].
    + rewrite dict_get_record_game.
      change (g_player g2) with (g_player g1). rewrite String.eqb_refl, E.
      reflexivity.
    + rewrite dict_get_record_game.
      change (g_player g1) with (g_player g2). rewrite String.eqb_refl, E.
      reflexivity.
    + rewrite entry_record_game.
      change (g_player g2) with (g_player g1). rewrite String.eqb_refl, E.
      reflexivity.
Qed.

(** * Properties of the file selection *)

Lemma file_selected_three_chars (f : string) :
  file_selected f = true <->
  exists a b c : ascii, f = String a (String b (String c ".txt")).
Proof.
  split.
  - intros H. unfold file_selected in H.
    apply andb_prop in H. destruct H as [He Hl].
    apply Nat.eqb_eq in Hl.
    destruct f as [|c1 [|c2 [|c3 [|c4 [|c5 [|c6 [|c7 [|c8 f]]]]]]]];
      simpl in Hl; try discriminate.
    unfold endswith in He. simpl in He.
    destruct (Ascii.eqb_spec c4 "."); [subst c4 | discriminate].
    destruct (Ascii.eqb_spec c5 "t"); [subst c5 | discriminate].
    destruct (Ascii.eqb_spec c6 "x"); [subst c6 | discriminate].
    destruct (Ascii.eqb_spec c7 "t"); [subst c7 | discriminate].
    exists c1, c2, c3. reflexivity.
  - intros (a & b & c & ->). reflexivity.
Qed.

Lemma string_length_append (s1 s2 : string) :
  String.length (s1 ++ s2) = (String.length s1 + String.length s2)%nat.
Proof. induction s1 as [|c s1 IH]; simpl; [reflexivity | now rewrite IH]. Qed.

Lemma substring_all (s : string) : substring 0 (String.length s) s = s.
Proof. induction s as [|c s IH]; simpl; [reflexivity | now rewrite IH]. Qed.

Lemma substring_append_suffix (pre suf : string) :
  substring (String.length pre) (String.length suf) (pre ++ suf) = suf.
Proof.
  induction pre as [|c pre IH]; simpl; [apply substring_all | exact IH].
Qed.

Lemma string_split_at (s : string) :
  forall k : nat, (k <= String.length s)%nat ->
    s = (substring 0 k s ++ substring k (String.length s - k) s)%string.
Proof.
  induction s as [|c s IH]; intros k Hk.
  - destruct k; reflexivity.
  - destruct k as [|k].
    + simpl. now rewrite substring_all.
    + simpl in Hk |- *. f_equal. apply IH. lia.
Qed.

(** [endswith] is the suffix test. *)
Lemma endswith_correct (s suffix : string) :
  endswith s suffix = true <-> exists pre : string, s = (pre ++ suffix)%string.
Proof.
  unfold endswith. split.
  - intros H. apply andb_prop in H. destruct H as [Hm He].
    apply Nat.leb_le in Hm. apply String.eqb_eq in He.
    exists (substring 0 (String.length s - String.length suffix) s).
    pose proof (string_split_at s
      (String.length s - String.length suffix) ltac:(lia)) as Hs.
    replace (String.length s - (String.length s - String.length suffix))%nat
      with (String.length suffix) in Hs by lia.
    now rewrite He in Hs.
  - intros [pre ->]. rewrite string_length_append.
    apply andb_true_intro. split.
    + apply Nat.leb_le. lia.
    + replace (String.length pre + String.length suffix
               - String.length suffix)%nat
        with (String.length pre) by lia.
      rewrite substring_append_suffix. apply String.eqb_refl.
Qed.

(** C4. A file name is selected if and only if its length is 7 and it
    ends with [.txt], that is, if and only if it is three characters of
    any kind followed by [.txt].  [ATLX.txt] is left out, [ATL.txt] is
    taken, and so is a name whose three characters are not letters. *)
Theorem file_selected_spec :
  (forall f : string,
     file_selected f = true <->
     String.length f = 7%nat /\ exists pre : string, f = (pre ++ ".txt")%string) /\
  (forall f : string,
     file_selected f = true <->
     exists a b c : ascii, f = String a (String b (String c ".txt"))) /\
  file_selected "ATLX.txt" = false /\
  file_selected "ATL.txt" = true /\
  file_selected "1 !.txt" = true.
Proof.
  split; [|split; [|repeat split]].
  - intros f. unfold file_selected.
    rewrite andb_true_iff, Nat.eqb_eq, endswith_correct. tauto.
  - exact file_selected_three_chars.
Qed.

(** * Properties of the sort *)

Section SortFacts.
Context {A : Type}.
Variable key : A -> R.

Lemma insert_by_perm (x : A) (l : list A) :
  Permutation (insert_by key x l) (x :: l).
Proof.
  induction l as [|y l IH]; simpl.
  - apply Permutation_refl.
  - destruct (Rltb (key y) (key x)).
    + eapply perm_trans; [apply perm_skip, IH | apply perm_swap].
    + apply Permutation_refl.
Qed.

Lemma sort_by_perm (l : list A) : Permutation (sort_by key l) l.
Proof.
  induction l as [|x l IH]; simpl.
  - apply perm_nil.
  - eapply perm_trans; [apply insert_by_perm | apply perm_skip, IH].
Qed.

Lemma sort_by_In (l : list A) (x : A) : In x (sort_by key l) <-> In x l.
Proof.
  split; apply Permutation_in;
    [apply sort_by_perm | apply Permutation_sym, sort_by_perm].
Qed.

Lemma sort_by_length (l : list A) : length (sort_by key l) = length l.
Proof. apply Permutation_length, sort_by_perm. Qed.

Lemma insert_by_HdRel (a x : A) (l : list A) :
  key_le key a x -> HdRel (key_le key) a l ->
  HdRel (key_le key) a (insert_by key x l).
Proof.
  intros Hax Hal. destruct l as [|y l]; simpl.
  - now constructor.
  - destruct (Rltb (key y) (key x)); constructor.
    + now inversion Hal.
    + exact Hax.
Qed.

Lemma insert_by_sorted (x : A) (l : list A) :
  Sorted (key_le key) l -> Sorted (key_le key) (insert_by key x l).
Proof.
  induction 1 as [|y l HS IH Hd]; simpl.
  - repeat constructor.
  - destruct (Rltb (key y) (key x)) eqn:E.
    + constructor; [exact IH|].
      apply insert_by_HdRel; [|exact Hd].
      apply Rltb_true_iff in E. unfold key_le. lra.
    + constructor; [now constructor|].
      constructor. apply Rltb_false_iff in E. exact E.
Qed.

Lemma sort_by_sorted (l : list A) : Sorted (key_le key) (sort_by key l).
Proof.
  induction l as [|x l IH]; simpl; [constructor | now apply insert_by_sorted].
Qed.

(** The insertion goes past smaller keys only, so it does not change
    the order of the items of any one key. *)
Lemma insert_by_with_key (k : R) (x : A) (l : list A) :
  with_key key k (insert_by key x l) = with_key key k (x :: l).
Proof.
  unfold with_key. induction l as [|y l IH]; simpl.
  - reflexivity.
  - destruct (Rltb (key y) (key x)) eqn:E; [|reflexivity].
    apply Rltb_true_iff in E. simpl. rewrite IH. simpl.
    destruct (Req_dec_T (key x) k) as [Hx|Hx];
      destruct (Req_dec_T (key y) k) as [Hy|Hy]; try reflexivity.
    lra.
Qed.

Lemma sort_by_stable (k : R) (l : list A) :
  with_key key k (sort_by key l) = with_key key k l.
Proof.
  induction l as [|x l IH]; simpl; [reflexivity|].
  rewrite insert_by_with_key. unfold with_key in *. simpl. now rewrite IH.
Qed.

(** In a sorted list, the keys of two neighbours are in order. *)
Lemma sorted_neighbours (l : list A) :
  Sorted (key_le key) l ->
  forall (pre post : list A) (a b : A),
    l = pre ++ a :: b :: post -> key a <= key b.
Proof.
  intros HS pre. revert l HS.
  induction pre as [|c pre IH]; intros l HS post a b ->; simpl in HS.
  - inversion HS as [|? ? _ Hd]. now inversion Hd.
  - inversion HS as [|? ? HS' _]. now apply (IH _ HS' post).
Qed.
Lemma with_key_In (k : R) (l : list A) (x : A) :
  In x (with_key key k l) <-> In x l /\ key x = k.
Proof.
  unfold with_key. rewrite filter_In.
  destruct (Req_dec_T (key x) k); intuition discriminate.
Qed.

Lemma sorted_head_least (a : A) (l : list A) :
  Sorted (key_le key) (a :: l) -> forall x : A, In x (a :: l) -> key a <= key x.
Proof.
  intros HS x Hx.
  apply Sorted_StronglySorted in HS;
    [|intros u v w; unfold key_le; apply Rle_trans].
  inversion HS as [|? ? _ Hall]; subst.
  destruct Hx as [<-|Hx]; [lra|].
  rewrite Forall_forall in Hall. now apply Hall.
Qed.

(** The sorted list in which the items of each key keep a given order is
    unique: every stable ascending sort gives the list of [sort_by]. *)
Lemma sorted_stable_unique (l1 : list A) :
  forall l2 : list A,
    Sorted (key_le key) l1 -> Sorted (key_le key) l2 ->
    (forall k : R, with_key key k l1 = with_key key k l2) ->
    l1 = l2.
Proof.
  induction l1 as [|a l1 IH]; intros [|b l2] S1 S2 H.
  - reflexivity.
  - exfalso. specialize (H (key b)). unfold with_key in H. simpl in H.
    destruct (Req_dec_T (key b) (key b)); [discriminate | congruence].
  - exfalso. specialize (H (key a)). unfold with_key in H. simpl in H.
    destruct (Req_dec_T (key a) (key a)); [discriminate | congruence].
  - assert (Hab : key a <= key b).
    { apply (sorted_head_least a l1 S1).
      apply (proj1 (with_key_In (key b) (a :: l1) b)).
      rewrite H. apply with_key_In. split; [now left | reflexivity]. }
    assert (Hba : key b <= key a).
    { apply (sorted_head_least b l2 S2).
      apply (proj1 (with_key_In (key a) (b :: l2) a)).
      rewrite <- H. apply with_key_In. split; [now left | reflexivity]. }
    assert (E : key a = key b) by lra.
    assert (Eab : a = b).
    { specialize (H (key a)). unfold with_key in H. simpl in H.
      destruct (Req_dec_T (key a) (key a)); [|congruence].
      destruct (Req_dec_T (key b) (key a)); [|congruence].
      now injection H. }
    subst b. f_equal. apply IH.
    + now inversion S1.
    + now inversion S2.
    + intros k. specialize (H k). unfold with_key in H |- *. simpl in H.
      destruct (Req_dec_T (key a) k); [now injection H | exact H].
Qed.

End SortFacts.

(** * Properties of the report rows *)

Lemma coefficient_of_variation_ok (std_dev mean_pts : R) :
  coefficient_of_variation std_dev mean_pts =
  Ok (if Rgtb (Rabs mean_pts) 1e-9 then std_dev / mean_pts else 0).
Proof.
  unfold coefficient_of_variation.
  destruct (Rgtb (Rabs mean_pts) 1e-9) eqn:E; [|reflexivity].
  apply py_div_nonzero. intros ->.
  apply Rltb_true_iff in E. rewrite Rabs_R0 in E. lra.
Qed.

Lemma percentile_value (l : list R) (p : R) :
  l <> [] -> 0 <= p <= 1 -> exists v : R, percentile l p = Ok (Some v).
Proof.
  intros Hne Hp.
  assert (Hn : (1 <= len l)%Z).
  { pose proof (len_nonneg l). pose proof (len_nil_iff l).
    destruct (Z.eq_dec (len l) 0); [tauto | lia]. }
  destruct (Z.eq_dec (len l) 1) as [E1|E1].
  - exists (item l 0). unfold percentile. rewrite E1. simpl.
    rewrite py_getitem_in_range by lia. reflexivity.
  - rewrite (percentile_two_or_more l p ltac:(lia) Hp). eexists. reflexivity.
Qed.

Lemma lower_semideviation_total (l : list R) :
  exists s : R, lower_semideviation l = Ok s.
Proof.
  destruct l as [|x l].
  - exists 0. reflexivity.
  - rewrite lower_semideviation_nonempty by discriminate. eexists.
    reflexivity.
Qed.

Lemma py_sorted_nonempty (l : list R) : l <> [] -> py_sorted l <> [].
Proof.
  intros Hne Hs. apply Hne. apply length_zero_iff_nil.
  unfold py_sorted in Hs. rewrite <- (sort_by_length (fun x => x) l), Hs.
  reflexivity.
Qed.

Lemma build_row_empty (player : string) (info : player_info) :
  points info = [] -> build_row player info = Ok None.
Proof. intros H. unfold build_row. now rewrite H. Qed.

(** The row of a player with at least one game. *)
Lemma build_row_nonempty (player : string) (info : player_info) :
  points info <> [] ->
  let pts := points info in
  let mean_pts := py_sum pts / IZR (len pts) in
  exists std_dev p10 p20 p30 : R,
    lower_semideviation pts = Ok std_dev /\
    percentile (py_sorted pts) 0.10 = Ok (Some p10) /\
    percentile (py_sorted pts) 0.20 = Ok (Some p20) /\
    percentile (py_sorted pts) 0.30 = Ok (Some p30) /\
    build_row player info =
    Ok (Some (mk_row player (current_team info) mean_pts std_dev
                (if Rgtb (Rabs mean_pts) 1e-9 then std_dev / mean_pts else 0)
                (Some p10) (Some p20) (Some p30) (len pts))).
Proof.
  intros Hne pts mean_pts.
  destruct (lower_semideviation_total pts) as [std_dev Hs].
  pose proof (py_sorted_nonempty pts Hne) as Hsn.
  destruct (percentile_value (py_sorted pts) 0.10 Hsn ltac:(lra)) as [p10 H10].
  destruct (percentile_value (py_sorted pts) 0.20 Hsn ltac:(lra)) as [p20 H20].
  destruct (percentile_value (py_sorted pts) 0.30 Hsn ltac:(lra)) as [p30 H30].
  exists std_dev, p10, p20, p30. repeat (split; [assumption|]).
  unfold build_row. fold pts.
  destruct (len pts =? 0)%Z eqn:E0.
  { apply Z.eqb_eq, len_nil_iff in E0. contradiction. }
  rewrite py_div_nonzero by (pose proof (IZR_len_pos pts Hne); lra).
  cbn [bind]. fold mean_pts. rewrite Hs. cbn [bind].
  rewrite coefficient_of_variation_ok. cbn [bind].
  rewrite H10, H20, H30. reflexivity.
Qed.

(** [build_row] never raises. *)
Lemma build_row_total (player : string) (info : player_info) :
  exists r : option stat_row, build_row player info = Ok r.
Proof.
  destruct (points info) as [|x l] eqn:E.
  - exists None. now apply build_row_empty.
  - destruct (build_row_nonempty player info) as (s & a & b & c & H).
    + rewrite E. discriminate.
    + destruct H as (_ & _ & _ & _ & H). eexists. exact H.
Qed.

(** The rows of the players with a game, in the order of the dict. *)
Lemma build_results_total (data : player_dict) :
  exists results : list stat_row,
    build_results data = Ok results /\
    (forall r : stat_row, In r results ->
       exists (player : string) (info : player_info),
         In (player, info) data /\ build_row player info = Ok (Some r)) /\
    map r_player results =
    map fst (filter (fun e => negb (len (points (snd e)) =? 0)%Z) data).
Proof.
  induction data as [|[player info] data IH].
  - exists []. simpl. repeat split. intros r [].
  - destruct IH as (results & Hr & Hin & Hord).
    destruct (build_row_total player info) as [r Hb].
    exists (match r with Some row => row :: results | None => results end).
    split; [|split].
    + simpl. rewrite Hb. cbn [bind]. rewrite Hr. reflexivity.
    + intros r0 H0. destruct r as [row|].
      * destruct H0 as [<-|H0].
        -- exists player, info. split; [now left | exact Hb].
        -- destruct (Hin r0 H0) as (p & i & Hpi & Hbi).
           exists p, i. split; [now right | exact Hbi].
      * destruct (Hin r0 H0) as (p & i & Hpi & Hbi).
        exists p, i. split; [now right | exact Hbi].
    + simpl. destruct (points info) as [|x l] eqn:E.
      * rewrite (build_row_empty player info E) in Hb.
        injection Hb as <-. simpl. exact Hord.
      * destruct (build_row_nonempty player info) as (s & a & b & c & H);
          [rewrite E; discriminate|].
        destruct H as (_ & _ & _ & _ & H). rewrite H in Hb.
        injection Hb as <-.
        replace (len (x :: l) =? 0)%Z with false
          by (symmetry; apply Z.eqb_neq; unfold len; simpl; lia).
        simpl. now rewrite Hord.
Qed.

(** C5. The report never raises, and its rows are the rows built for the
    players, in the order of the iteration over the players, sorted
    ascending by [std_dev]: any row is followed by a row whose [std_dev]
    is at least its own, the rows are the same as before the sort, and the
    rows of any one [std_dev] keep the order they had before the sort.
    These properties leave one list only, so the rows do not depend on
    the algorithm of the stable sort. *)
Theorem report_sorted_stable (data : player_dict) :
  exists results rows : list stat_row,
    build_results data = Ok results /\
    report data = Ok rows /\
    Sorted (key_le r_std_dev) rows /\
    (forall (pre post : list stat_row) (a b : stat_row),
       rows = pre ++ a :: b :: post -> r_std_dev a <= r_std_dev b) /\
    Permutation rows results /\
    (forall k : R, with_key r_std_dev k rows = with_key r_std_dev k results) /\
    (forall rows' : list stat_row,
       Sorted (key_le r_std_dev) rows' ->
       (forall k : R,
          with_key r_std_dev k rows' = with_key r_std_dev k results) ->
       rows' = rows) /\
    map r_player results =
    map fst (filter (fun e => negb (len (points (snd e)) =? 0)%Z) data).
Proof.
  destruct (build_results_total data) as (results & Hr & _ & Hord).
  exists results, (sort_by r_std_dev results).
  split; [exact Hr|].
  split; [unfold report; now rewrite Hr|].
  split; [apply sort_by_sorted|].
  split; [apply sorted_neighbours, sort_by_sorted|].
  split; [apply sort_by_perm|].
  split; [intros k; apply sort_by_stable|].
  split; [|exact Hord].
  intros rows' HS Hk. apply (sorted_stable_unique r_std_dev); auto.
  - apply sort_by_sorted.
  - intros k. now rewrite Hk, sort_by_stable.
Qed.

(** C7. In every row built for a player, [cv] is [std_dev / mean_pts]
    when [|mean_pts| > 1e-9] and [0.0] otherwise, where [mean_pts] is the
    mean of the points and [std_dev] their semideviation; the division is
    made with a divisor of absolute value above [1e-9] only and no
    division of the row raises [ZeroDivisionError]. *)
Theorem coefficient_of_variation_spec :
  (forall std_dev mean_pts : R,
     (Rabs mean_pts > 1e-9 ->
      mean_pts <> 0 /\
      coefficient_of_variation std_dev mean_pts = Ok (std_dev / mean_pts)) /\
     (Rabs mean_pts <= 1e-9 ->
      coefficient_of_variation std_dev mean_pts = Ok 0)) /\
  (forall (player : string) (info : player_info),
     points info <> [] ->
     exists row : stat_row,
       build_row player info = Ok (Some row) /\
       r_mean_pts row = py_sum (points info) / IZR (len (points info)) /\
       lower_semideviation (points info) = Ok (r_std_dev row) /\
       (Rabs (r_mean_pts row) > 1e-9 ->
        r_cv row = r_std_dev row / r_mean_pts row) /\
       (Rabs (r_mean_pts row) <= 1e-9 -> r_cv row = 0)) /\
  (forall (player : string) (info : player_info),
     build_row player info <> Raise ZeroDivisionError).
Proof.
  assert (T : forall a b : R, Rabs b > 1e-9 -> Rgtb (Rabs b) 1e-9 = true).
  { intros a b H. apply Rltb_true_iff. lra. }
  assert (F : forall b : R, Rabs b <= 1e-9 -> Rgtb (Rabs b) 1e-9 = false).
  { intros b H. apply Rltb_false_iff. lra. }
  split; [|split].
  - intros std_dev mean_pts. rewrite coefficient_of_variation_ok. split.
    + intros H. rewrite (T 0 _ H). split; [|reflexivity].
      intros ->. rewrite Rabs_R0 in H. lra.
    + intros H. now rewrite (F _ H).
  - intros player info Hne.
    destruct (build_row_nonempty player info Hne)
      as (std_dev & p10 & p20 & p30 & Hs & _ & _ & _ & Hb).
    eexists. split; [exact Hb|]. simpl.
    split; [reflexivity|]. split; [exact Hs|]. split.
    + intros H. now rewrite (T 0 _ H).
    + intros H. now rewrite (F _ H).
  - intros player info. destruct (build_row_total player info) as [r ->].
    discriminate.
Qed.

(** * Properties of the parser *)

Section ParserFacts.
Variable py_float : string -> option R.
Variable strptime : string -> string -> option datetime.

Lemma parse_row_falsy (row : csv_row) :
  falsy (row_get row "PLAYER") = true \/ falsy (row_get row "PTS") = true \/
  falsy (row_get row "GAME DATE") = true \/
  falsy (row_get row "TEAM") = true ->
  parse_row py_float strptime row = None.
Proof.
  intros H. unfold parse_row.
  destruct (falsy (row_get row "PLAYER")); [reflexivity|].
  destruct (falsy (row_get row "PTS")); [reflexivity|].
  destruct (falsy (row_get row "GAME DATE")); [reflexivity|].
  destruct (falsy (row_get row "TEAM")); [reflexivity|].
  destruct H as [H|[H|[H|H]]]; discriminate.
Qed.

(** The rows that pass the checks, and the record each gives. *)
Lemma parse_row_Some (row : csv_row) (g : game_record) :
  parse_row py_float strptime row = Some g <->
  exists pts_str date_str : string,
    row_get row "PLAYER" = Some (g_player g) /\ g_player g <> ""%string /\
    row_get row "PTS" = Some pts_str /\ pts_str <> ""%string /\
    row_get row "GAME DATE" = Some date_str /\ date_str <> ""%string /\
    row_get row "TEAM" = Some (g_team g) /\ g_team g <> ""%string /\
    py_float pts_str = Some (g_points g) /\
    strptime date_str DATE_FORMAT = Some (g_date g).
Proof.
  unfold parse_row. split.
  - intros H.
    destruct (row_get row "PLAYER") as [player_name|]; [|discriminate].
    destruct (row_get row "PTS") as [pts_str|];
      [|simpl in H; rewrite orb_true_r in H; discriminate].
    destruct (row_get row "GAME DATE") as [date_str|];
      [|simpl in H; rewrite !orb_true_r in H; discriminate].
    destruct (row_get row "TEAM") as [team_str|];
      [|simpl in H; rewrite !orb_true_r in H; discriminate].
    simpl in H.
    destruct (String.eqb_spec player_name ""); [discriminate|].
    destruct (String.eqb_spec pts_str ""); [discriminate|].
    destruct (String.eqb_spec date_str ""); [discriminate|].
    destruct (String.eqb_spec team_str ""); [discriminate|].
    simpl in H.
    destruct (py_float pts_str) as [pts|] eqn:Ef; [|discriminate].
    destruct (strptime date_str DATE_FORMAT) as [d|] eqn:Ed; [|discriminate].
    injection H as <-. simpl. exists pts_str, date_str. repeat split; auto.
  - intros (pts_str & date_str & -> & Hp & -> & Hs & -> & Hd & -> & Ht
            & Hf & Hdt).
    simpl.
    apply String.eqb_neq in Hp, Hs, Hd, Ht. rewrite Hp, Hs, Hd, Ht. simpl.
    rewrite Hf, Hdt. now destruct g.
Qed.

(** C6. A row in which one of the columns PLAYER, PTS, GAME DATE and
    TEAM is missing or empty, or whose PTS is not accepted by [float],
    or whose GAME DATE is not accepted by [strptime] under the format
    [%m/%d/%Y], gives no record and leaves the dict of the players
    exactly as it was; a run of such rows does the same.  No step of the
    row is an exception that leaves the loop. *)
Theorem bad_row_skipped (player_data : player_dict) (row : csv_row) :
  (falsy (row_get row "PLAYER") = true \/
   falsy (row_get row "PTS") = true \/
   falsy (row_get row "GAME DATE") = true \/
   falsy (row_get row "TEAM") = true \/
   (exists pts_str : string,
      row_get row "PTS" = Some pts_str /\ py_float pts_str = None) \/
   (exists date_str : string,
      row_get row "GAME DATE" = Some date_str /\
      strptime date_str "%m/%d/%Y" = None)) ->
  parse_row py_float strptime row = None /\
  process_row py_float strptime player_data row = player_data /\
  forall rows : list csv_row,
    Forall (fun r => parse_row py_float strptime r = None) rows ->
    fold_left (process_row py_float strptime) (row :: rows) player_data =
    player_data.
Proof.
  intros H.
  assert (N : parse_row py_float strptime row = None).
  { destruct (parse_row py_float strptime row) as [g|] eqn:E;
      [|reflexivity].
    exfalso. apply parse_row_Some in E.
    destruct E as (pts_str & date_str & Hp & Hpn & Hs & Hsn & Hd & Hdn
                   & Ht & Htn & Hf & Hdt).
    unfold DATE_FORMAT in Hdt.
    destruct H as [H|[H|[H|[H|[(s & H1 & H2)|(s & H1 & H2)]]]]].
    - rewrite Hp in H. simpl in H. now apply String.eqb_eq in H.
    - rewrite Hs in H. simpl in H. now apply String.eqb_eq in H.
    - rewrite Hd in H. simpl in H. now apply String.eqb_eq in H.
    - rewrite Ht in H. simpl in H. now apply String.eqb_eq in H.
    - rewrite Hs in H1. injection H1 as <-. congruence.
    - rewrite Hd in H1. injection H1 as <-. congruence. }
  split; [exact N|].
  assert (P : forall r pd, parse_row py_float strptime r = None ->
              process_row py_float strptime pd r = pd).
  { intros r pd Hr. unfold process_row. now rewrite Hr. }
  split; [now apply P|].
  intros rows Hrows. simpl. rewrite (P _ _ N).
  induction Hrows as [|r rows Hr _ IH]; simpl; [reflexivity|].
  now rewrite (P _ _ Hr).
Qed.

End ParserFacts.

(** * Invariants of the dict of the players *)

Lemma In_keys_dict_set (d : player_dict) (k k' : string) (v : player_info) :
  In k' (map fst (dict_set d k v)) <-> k' = k \/ In k' (map fst d).
Proof.
  induction d as [|[k0 v0] d IH]; simpl.
  - intuition.
  - destruct (String.eqb_spec k k0) as [->|Hk]; simpl.
    + intuition.
    + rewrite IH. intuition.
Qed.

Lemma dict_set_NoDup (d : player_dict) (k : string) (v : player_info) :
  NoDup (map fst d) -> NoDup (map fst (dict_set d k v)).
Proof.
  induction d as [|[k0 v0] d IH]; simpl; intros H.
  - repeat constructor. intros [].
  - inversion H as [|? ? Hn Hd]; subst.
    destruct (String.eqb_spec k k0) as [->|Hk]; simpl.
    + now constructor.
    + constructor; [|now apply IH].
      rewrite In_keys_dict_set. intros [E|E]; [congruence | contradiction].
Qed.

Lemma dd_getitem_NoDup (d : player_dict) (k : string) :
  NoDup (map fst d) -> NoDup (map fst (fst (dd_getitem d k))).
Proof.
  intros H. unfold dd_getitem. destruct (dict_get d k); simpl.
  - exact H.
  - now apply dict_set_NoDup.
Qed.

Lemma dd_update_NoDup (d : player_dict) (k : string)
  (f : player_info -> player_info) :
  NoDup (map fst d) -> NoDup (map fst (dd_update d k f)).
Proof.
  intros H. unfold dd_update.
  pose proof (dd_getitem_NoDup d k H) as H'.
  destruct (dd_getitem d k) as [d' v]. now apply dict_set_NoDup.
Qed.

Lemma record_game_NoDup (pd : player_dict) (g : game_record) :
  NoDup (map fst pd) -> NoDup (map fst (record_game pd g)).
Proof.
  intros H. unfold record_game.
  set (d1 := dd_update pd (g_player g) _).
  assert (H1 : NoDup (map fst d1)) by now apply dd_update_NoDup.
  pose proof (dd_getitem_NoDup d1 (g_player g) H1) as H2.
  destruct (dd_getitem d1 (g_player g)) as [d2 e2]. simpl in H2.
  destruct (match most_recent_date e2 with
            | Some c => datetime_gt (g_date g) c
            | None => true
            end).
  - now apply dd_update_NoDup, dd_update_NoDup.
  - exact H2.
Qed.

Lemma In_dict_get (d : player_dict) (k : string) (e : player_info) :
  NoDup (map fst d) -> In (k, e) d -> dict_get d k = Some e.
Proof.
  induction d as [|[k0 v0] d IH]; simpl; intros Hn Hin; [contradiction|].
  inversion Hn as [|? ? Hk0 Hd]; subst.
  destruct Hin as [E|Hin].
  - injection E as -> ->. now rewrite String.eqb_refl.
  - destruct (String.eqb_spec k k0) as [->|Hk].
    + exfalso. apply Hk0. apply in_map_iff. now exists (k0, e).
    + now apply IH.
Qed.

Lemma record_game_well_formed (pd : player_dict) (g : game_record) :
  well_formed pd -> well_formed (record_game pd g).
Proof.
  intros [Hn Hg]. split; [now apply record_game_NoDup|].
  intros k e. rewrite dict_get_record_game.
  destruct (String.eqb k (g_player g)); [|apply Hg].
  cbv zeta. intros H. injection H as <-. unfold has_game. simpl.
  assert (D : entry pd (g_player g) = default_info \/
              has_game (entry pd (g_player g))).
  { unfold entry. destruct (dict_get pd (g_player g)) as [e0|] eqn:E.
    - right. now apply (Hg _ _ E).
    - now left. }
  split; [now destruct (points (entry pd (g_player g)))|].
  destruct D as [D|(_ & Hd & Ht)].
  - rewrite D. simpl. split; discriminate.
  - destruct (is_newer (g_date g) (most_recent_date (entry pd (g_player g))));
      split; try discriminate; assumption.
Qed.

Section PipelineFacts.
Variable py_float : string -> option R.
Variable strptime : string -> string -> option datetime.

Lemma process_row_well_formed (pd : player_dict) (row : csv_row) :
  well_formed pd -> well_formed (process_row py_float strptime pd row).
Proof.
  intros H. unfold process_row.
  destruct (parse_row py_float strptime row);
    [now apply record_game_well_formed | exact H].
Qed.

Lemma fold_process_row_well_formed (rows : list csv_row) :
  forall pd : player_dict,
    well_formed pd ->
    well_formed (fold_left (process_row py_float strptime) rows pd).
Proof.
  induction rows as [|row rows IH]; intros pd H; simpl; [exact H|].
  now apply IH, process_row_well_formed.
Qed.

Lemma parse_all_team_files_well_formed (dir : directory) :
  well_formed (parse_all_team_files py_float strptime dir).
Proof.
  unfold parse_all_team_files.
  assert (W : well_formed []).
  { split; [constructor | intros k e H; discriminate]. }
  revert W. generalize (@nil (string * player_info)).
  induction dir as [|[filename rows] dir IH]; intros pd W; simpl;
    [exact W|].
  apply IH. destruct (file_selected filename);
    [now apply fold_process_row_well_formed | exact W].
Qed.

(** Every player [data.items()] gives has a game. *)
Lemma items_have_game (dir : directory) (player : string)
  (info : player_info) :
  In (player, info) (parse_all_team_files py_float strptime dir) ->
  has_game info.
Proof.
  intros Hin.
  destruct (parse_all_team_files_well_formed dir) as [Hn Hg].
  apply (Hg player). now apply In_dict_get.
Qed.

End PipelineFacts.

(** * The rows of a whole run *)

Lemma filter_all {A : Type} (f : A -> bool) (l : list A) :
  (forall x : A, In x l -> f x = true) -> filter f l = l.
Proof.
  induction l as [|x l IH]; intros H; simpl; [reflexivity|].
  rewrite (H x) by now left. f_equal. apply IH. intros y Hy. apply H.
  now right.
Qed.

Lemma len_points_nonzero (info : player_info) :
  points info <> [] -> (len (points info) =? 0)%Z = false.
Proof.
  intros H. apply Z.eqb_neq. intros E. now apply len_nil_iff in E.
Qed.

Section RunFacts.
Variable py_float : string -> option R.
Variable strptime : string -> string -> option datetime.

(** A run gives one row for each player of the dict, and each row is
    the row built for a player who has a game. *)
Lemma main_rows_total (dir : directory) :
  let data := parse_all_team_files py_float strptime dir in
  exists rows : list stat_row,
    main_rows py_float strptime dir = Ok rows /\
    length rows = length data /\
    forall r : stat_row, In r rows ->
      exists (player : string) (info : player_info),
        In (player, info) data /\ has_game info /\
        build_row player info = Ok (Some r).
Proof.
  intros data.
  destruct (build_results_total data) as (results & Hr & Hin & Hord).
  exists (sort_by r_std_dev results). split; [|split].
  - unfold main_rows, report. fold data. now rewrite Hr.
  - rewrite sort_by_length.
    rewrite <- (length_map r_player results), Hord, length_map.
    rewrite filter_all; [reflexivity|].
    intros [player info] Hpi. simpl.
    apply negb_true_iff, len_points_nonzero.
    now apply (items_have_game py_float strptime dir player info Hpi).
  - intros r Hr0. apply sort_by_In in Hr0.
    destruct (Hin r Hr0) as (player & info & Hpi & Hb).
    exists player, info. split; [exact Hpi|]. split; [|exact Hb].
    now apply (items_have_game py_float strptime dir player info Hpi).
Qed.

(** C8. Every entry of the dict that the aggregation returns has a
    non-empty list of points, so the loop of [main] never takes the
    [continue] of a player without games; a run gives one row for each
    player of the dict, and every row has at least one game. *)
Theorem rows_have_a_game (dir : directory) :
  let data := parse_all_team_files py_float strptime dir in
  (forall (player : string) (info : player_info),
     In (player, info) data ->
     points info <> [] /\
     (len (points info) =? 0)%Z = false /\
     build_row player info <> Ok None) /\
  exists rows : list stat_row,
    main_rows py_float strptime dir = Ok rows /\
    length rows = length data /\
    forall r : stat_row, In r rows -> (1 <= r_games_played r)%Z.
Proof.
  intros data. split.
  - intros player info Hpi.
    destruct (items_have_game py_float strptime dir player info Hpi)
      as (Hp & _ & _).
    split; [exact Hp|]. split; [now apply len_points_nonzero|].
    destruct (build_row_nonempty player info Hp)
      as (s & a & b & c & _ & _ & _ & _ & ->).
    discriminate.
  - destruct (main_rows_total dir) as (rows & Hm & Hl & Hin).
    exists rows. split; [exact Hm|]. split; [exact Hl|].
    intros r Hr. destruct (Hin r Hr) as (player & info & _ & (Hp & _) & Hb).
    destruct (build_row_nonempty player info Hp)
      as (s & a & b & c & _ & _ & _ & _ & Hb').
    rewrite Hb' in Hb. injection Hb as <-. simpl.
    pose proof (len_nonneg (points info)).
    pose proof (len_nil_iff (points info)).
    destruct (Z.eq_dec (len (points info)) 0); [tauto | lia].
Qed.

(** C10. The first record of a player sets the team; every entry of
    the dict that the aggregation returns has a team; and in every row
    of a run the team and the three percentiles are not [None]. *)
Theorem rows_have_no_None (dir : directory) :
  let data := parse_all_team_files py_float strptime dir in
  (forall (pd : player_dict) (g : game_record),
     dict_get pd (g_player g) = None ->
     dict_get (record_game pd g) (g_player g) =
     Some (mk_info [g_points g] (Some (g_date g)) (Some (g_team g)))) /\
  (forall (player : string) (info : player_info),
     In (player, info) data ->
     current_team info <> None /\ points info <> []) /\
  exists rows : list stat_row,
    main_rows py_float strptime dir = Ok rows /\
    forall r : stat_row, In r rows ->
      r_team r <> None /\ r_p10 r <> None /\ r_p20 r <> None /\
      r_p30 r <> None.
Proof.
  intros data. split; [|split].
  - intros pd g Hnone. rewrite dict_get_record_game, String.eqb_refl.
    unfold entry. rewrite Hnone. reflexivity.
  - intros player info Hpi.
    destruct (items_have_game py_float strptime dir player info Hpi)
      as (Hp & _ & Ht).
    now split.
  - destruct (main_rows_total dir) as (rows & Hm & _ & Hin).
    exists rows. split; [exact Hm|].
    intros r Hr.
    destruct (Hin r Hr) as (player & info & _ & (Hp & _ & Ht) & Hb).
    destruct (build_row_nonempty player info Hp)
      as (s & a & b & c & _ & _ & _ & _ & Hb').
    rewrite Hb' in Hb. injection Hb as <-. simpl.
    repeat split; try discriminate. exact Ht.
Qed.

End RunFacts.

(** * Examples *)

(** The dict of the players of the example directory: the row without
    points and the row whose points are not a number are skipped, and so
    is the file whose name has four characters before [.txt]. *)
Example example_directory_parsed :
  parse_all_team_files example_float example_strptime example_directory =
  [("Trae Young"%string,
    mk_info [30] (Some (mk_datetime 2024 1 1)) (Some "ATL"%string));
   ("Dejounte Murray"%string,
    mk_info [18; 22] (Some (mk_datetime 2024 1 5)) (Some "NOP"%string))].
Proof. reflexivity. Qed.


Lemma aggregator_spec_witness :
  let g := mk_game "Trae Young" 30 (mk_datetime 2024 1 1) "ATL" in
  let e' := entry (record_game [] g) "Trae Young" in
  most_recent_date e' = Some (mk_datetime 2024 1 1) /\
  current_team e' = Some "ATL"%string.
Proof.
  intros g e'.
  destruct (proj1 (proj2 aggregator_spec) [] g) as (_ & H & _).
  apply H. reflexivity.
Defined.

Lemma file_selected_spec_witness : file_selected "BOS.txt" = true.
Proof.
  apply (proj2 (proj1 file_selected_spec "BOS.txt"%string)).
  split; [reflexivity|]. exists "BOS"%string. reflexivity.
Defined.

Lemma report_sorted_stable_witness :
  exists results rows : list stat_row,
    build_results
      (parse_all_team_files example_float example_strptime example_directory)
    = Ok results /\
    report
      (parse_all_team_files example_float example_strptime example_directory)
    = Ok rows /\
    Sorted (key_le r_std_dev) rows /\
    Permutation rows results /\
    map r_player results = ["Trae Young"; "Dejounte Murray"]%string.
Proof.
  destruct (report_sorted_stable
              (parse_all_team_files example_float example_strptime
                                    example_directory))
    as (results & rows & H1 & H2 & H3 & _ & H5 & _ & _ & H7).
  exists results, rows. repeat (split; [assumption|]).
  rewrite H7. rewrite example_directory_parsed. simpl.
  unfold len. simpl. reflexivity.
Defined.

Lemma coefficient_of_variation_spec_witness :
  coefficient_of_variation 3 12 = Ok (3 / 12) /\
  coefficient_of_variation 3 0 = Ok 0.
Proof.
  split.
  - apply (proj1 (proj1 coefficient_of_variation_spec 3 12)).
    rewrite Rabs_right; lra.
  - apply (proj2 (proj1 coefficient_of_variation_spec 3 0)).
    rewrite Rabs_R0. lra.
Defined.

Lemma bad_row_skipped_witness :
  let row := example_row "Trae Young" "DNP" "01/03/2024" "ATL" in
  parse_row example_float example_strptime row = None /\
  process_row example_float example_strptime [] row = [].
Proof.
  intros row.
  destruct (bad_row_skipped example_float example_strptime [] row)
    as (H1 & H2 & _).
  - right. right. right. right. left. exists "DNP"%string.
    split; reflexivity.
  - split; assumption.
Defined.

Lemma rows_have_a_game_witness :
  exists rows : list stat_row,
    main_rows example_float example_strptime example_directory = Ok rows /\
    length rows = 2%nat /\
    forall r : stat_row, In r rows -> (1 <= r_games_played r)%Z.
Proof.
  destruct (rows_have_a_game example_float example_strptime example_directory)
    as (_ & rows & H1 & H2 & H3).
  exists rows. split; [exact H1|]. split; [|exact H3].
  rewrite H2, example_directory_parsed. reflexivity.
Defined.

Lemma rows_have_no_None_witness :
  dict_get
    (record_game [] (mk_game "Trae Young" 30 (mk_datetime 2024 1 1) "ATL"))
    "Trae Young" =
  Some (mk_info [30] (Some (mk_datetime 2024 1 1)) (Some "ATL"%string)).
Proof.
  apply (proj1 (rows_have_no_None example_float example_strptime
                  example_directory)
           [] (mk_game "Trae Young" 30 (mk_datetime 2024 1 1) "ATL")).
  reflexivity.
Defined.

(** A row whose points are a number and whose date is not a date stores
    nothing: the points are not appended. *)
Example bad_date_row_stores_nothing :
  let data :=
    parse_all_team_files example_float example_strptime example_directory in
  process_row example_float example_strptime data
    (example_row "Trae Young" "41" "13/45/2024" "ATL") = data.
Proof. reflexivity. Qed.

(** * Further properties of [percentile] *)

Lemma py_getitem_wrapped (l : list R) (i : Z) :
  (- len l <= i < len l)%Z ->
  py_getitem l i = Ok (item l (wrap_index (len l) i)).
Proof.
  intros Hi. unfold py_getitem, wrap_index, item.
  destruct (i <? 0)%Z eqn:E.
  - apply Z.ltb_lt in E.
    destruct (i + len l <? 0)%Z eqn:E'; [apply Z.ltb_lt in E'; lia|].
    destruct (nth_error l (Z.to_nat (i + len l))) eqn:N.
    + now rewrite (nth_error_nth _ _ _ N).
    + apply nth_error_None in N. unfold len in *. lia.
  - rewrite E. apply Z.ltb_ge in E.
    destruct (nth_error l (Z.to_nat i)) eqn:N.
    + now rewrite (nth_error_nth _ _ _ N).
    + apply nth_error_None in N. unfold len in *. lia.
Qed.

Lemma py_getitem_outside (l : list R) (i : Z) :
  (i < - len l \/ len l <= i)%Z -> py_getitem l i = Raise IndexError.
Proof.
  intros Hi. unfold py_getitem.
  pose proof (len_nonneg l) as Hn.
  destruct (i <? 0)%Z eqn:E.
  - apply Z.ltb_lt in E.
    destruct (i + len l <? 0)%Z eqn:E'; [reflexivity|].
    apply Z.ltb_ge in E'. lia.
  - rewrite E. apply Z.ltb_ge in E.
    destruct (nth_error l (Z.to_nat i)) eqn:N; [|reflexivity].
    assert (Z.to_nat i < length l)%nat
      by (apply nth_error_Some; congruence).
    unfold len in *. lia.
Qed.



Lemma Zceil_le_Zfloor_succ (x : R) : (Zceil x <= Zfloor x + 1)%Z.
Proof.
  pose proof (Zfloor_bound x) as Bf. pose proof (Zceil_bound x) as Bc.
  assert (Zceil x - 1 < Zfloor x + 1)%Z
    by (apply lt_IZR; rewrite minus_IZR, plus_IZR; lra).
  lia.
Qed.

Lemma Zfloor_lt_of_ne_Zceil (x : R) : Zfloor x <> Zceil x -> IZR (Zfloor x) < x.
Proof.
  intros Hne. pose proof (Zfloor_bound x) as Bf.
  destruct (Req_dec_T x (IZR (Zfloor x))) as [E|E]; [|lra].
  exfalso. apply Hne. symmetry. apply Zceil_eq. lra.
Qed.

Lemma percentile_interpolated (l : list R) (p : R) :
  (2 <= len l)%Z -> 0 <= p <= 1 ->
  percentile l p = Ok (Some (interpolated l p)).
Proof. intros Hn Hp. now rewrite percentile_two_or_more. Qed.

(** On a sorted list the value lies between the items of the two ranks. *)
Lemma interpolated_between (l : list R) (p : R) :
  Sorted Rle l -> (2 <= len l)%Z -> 0 <= p <= 1 ->
  let idx := IZR (len l - 1) * p in
  item l (Zfloor idx) <= interpolated l p <= item l (Zceil idx).
Proof.
  intros HS Hn Hp idx.
  destruct (ranks_in_range (len l) p ltac:(lia) Hp) as (Hlo & Hmid & Hhi).
  fold idx in Hlo, Hmid, Hhi.
  pose proof (Sorted_item_le l HS (Zfloor idx) (Zceil idx)
                ltac:(lia) ltac:(lia)) as M.
  unfold interpolated. fold idx.
  destruct (Zfloor idx =? Zceil idx)%Z; [lra|].
  pose proof (Zfloor_bound idx) as B. nra.
Qed.

Lemma interpolated_mono (l : list R) (p q : R) :
  Sorted Rle l -> (2 <= len l)%Z -> 0 <= p -> p <= q -> q <= 1 ->
  interpolated l p <= interpolated l q.
Proof.
  intros HS Hn Hp Hpq Hq.
  set (ip := IZR (len l - 1) * p). set (iq := IZR (len l - 1) * q).
  assert (Hm : 0 <= IZR (len l - 1)) by (apply IZR_le; lia).
  assert (Hi : ip <= iq) by (unfold ip, iq; nra).
  destruct (ranks_in_range (len l) p ltac:(lia) ltac:(lra)) as (Pl & Pm & Ph).
  destruct (ranks_in_range (len l) q ltac:(lia) ltac:(lra)) as (Ql & Qm & Qh).
  fold ip in Pl, Pm, Ph. fold iq in Ql, Qm, Qh.
  pose proof (interpolated_between l p HS Hn ltac:(lra)) as Bp.
  pose proof (interpolated_between l q HS Hn ltac:(lra)) as Bq.
  cbv zeta in Bp, Bq. fold ip in Bp. fold iq in Bq.
  pose proof (Zfloor_le ip iq Hi) as Hll.
  destruct (Z.eq_dec (Zfloor ip) (Zfloor iq)) as [E|E].
  - unfold interpolated. fold ip iq.
    destruct (Zfloor ip =? Zceil ip)%Z eqn:Ep.
    + rewrite E. unfold interpolated in Bq. fold iq in Bq. lra.
    + apply Z.eqb_neq in Ep.
      pose proof (Zfloor_lt_of_ne_Zceil ip Ep) as Lp.
      pose proof (Zceil_le_Zfloor_succ ip) as Sp.
      pose proof (Zceil_le_Zfloor_succ iq) as Sq.
      pose proof (Zceil_bound iq) as Cq.
      assert (Hq' : (Zfloor iq < Zceil iq)%Z)
        by (apply lt_IZR; rewrite <- E; lra).
      assert (Ec : Zceil ip = Zceil iq) by lia.
      replace (Zfloor iq =? Zceil iq)%Z with false
        by (symmetry; apply Z.eqb_neq; lia).
      rewrite <- E, <- Ec.
      pose proof (Sorted_item_le l HS (Zfloor ip) (Zceil ip)
                    ltac:(lia) ltac:(lia)) as M.
      nra.
  - pose proof (Zceil_le_Zfloor_succ ip) as Sp.
    pose proof (Sorted_item_le l HS (Zceil ip) (Zfloor iq)
                  ltac:(lia) ltac:(lia)) as M.
    lra.
Qed.



Lemma Zceil_IZR (z : Z) : Zceil (IZR z) = z.
Proof. apply Zceil_eq. lra. Qed.

Lemma percentile_single (l : list R) (p : R) :
  len l = 1%Z -> percentile l p = Ok (Some (item l 0)).
Proof.
  intros E. unfold percentile. rewrite E. simpl.
  rewrite py_getitem_in_range by lia. reflexivity.
Qed.

Lemma len_pos_of_nonempty {A : Type} (l : list A) : l <> [] -> (1 <= len l)%Z.
Proof.
  intros Hne. pose proof (len_nonneg l). pose proof (len_nil_iff l).
  destruct (Z.eq_dec (len l) 0); [tauto | lia].
Qed.

(** The value at a fraction that falls on a rank. *)
Lemma interpolated_at_rank (l : list R) (p : R) (k : Z) :
  IZR (len l - 1) * p = IZR k -> interpolated l p = item l k.
Proof.
  intros E. unfold interpolated. rewrite E, ZfloorZ, Zceil_IZR.
  now rewrite Z.eqb_refl.
Qed.



(** * Further properties of [lower_semideviation] *)

Lemma IZR_len_cons {A : Type} (x : A) (l : list A) :
  IZR (len (x :: l)) = 1 + IZR (len l).
Proof.
  unfold len. simpl length. rewrite Nat2Z.inj_succ, succ_IZR. lra.
Qed.

Lemma py_sum_ge (l : list R) (m : R) :
  (forall x, In x l -> m <= x) -> IZR (len l) * m <= py_sum l.
Proof.
  induction l as [|x l IH]; intros H.
  - unfold py_sum, len. simpl. lra.
  - rewrite py_sum_cons, IZR_len_cons.
    assert (m <= x) by (apply H; now left).
    assert (IZR (len l) * m <= py_sum l)
      by (apply IH; intros y Hy; apply H; now right).
    lra.
Qed.

Lemma py_sum_le (l : list R) (m : R) :
  (forall x, In x l -> x <= m) -> py_sum l <= IZR (len l) * m.
Proof.
  induction l as [|x l IH]; intros H.
  - unfold py_sum, len. simpl. lra.
  - rewrite py_sum_cons, IZR_len_cons.
    assert (x <= m) by (apply H; now left).
    assert (py_sum l <= IZR (len l) * m)
      by (apply IH; intros y Hy; apply H; now right).
    lra.
Qed.

Lemma py_sum_pos (l : list R) :
  l <> [] -> (forall x, In x l -> 0 < x) -> 0 < py_sum l.
Proof.
  intros Hne H. destruct l as [|x l]; [contradiction|].
  rewrite py_sum_cons.
  assert (0 < x) by (apply H; now left).
  assert (0 <= py_sum l).
  { apply py_sum_nonneg. intros y Hy. apply Rlt_le, H. now right. }
  lra.
Qed.

(** A filter that keeps the whole length keeps every item. *)
Lemma filter_full_length {A : Type} (f : A -> bool) (l : list A) :
  length (filter f l) = length l -> forall x, In x l -> f x = true.
Proof.
  induction l as [|y l IH]; intros H x Hx; [contradiction|].
  pose proof (filter_length_le f l) as Hle.
  simpl in H. destruct (f y) eqn:E; simpl in H.
  - destruct Hx as [<-|Hx]; [exact E | apply IH; [lia | exact Hx]].
  - lia.
Qed.

(** At least one point of a non-empty list is not below the mean. *)
Lemma below_mean_shorter (points : list R) :
  points <> [] ->
  let mu := py_sum points / IZR (len points) in
  (len (filter (fun p => Rltb p mu) points) < len points)%Z.
Proof.
  intros Hne mu.
  pose proof (filter_length_le (fun p => Rltb p mu) points) as Hle.
  assert (Hd : length (filter (fun p => Rltb p mu) points) <> length points).
  { intros E.
    pose proof (filter_full_length _ _ E) as Hall.
    assert (Hs : py_sum points <= IZR (len points) * mu)
      by (apply py_sum_le; intros x Hx; apply Rlt_le, Rltb_true_iff, Hall, Hx).
    pose proof (IZR_len_pos points Hne) as Hn.
    assert (Hmu : IZR (len points) * mu = py_sum points)
      by (unfold mu; field; lra).
    destruct points as [|x l]; [contradiction|].
    assert (Hx : x < mu) by (apply Rltb_true_iff, Hall; now left).
    assert (Hl : py_sum l <= IZR (len l) * mu).
    { apply py_sum_le. intros y Hy. apply Rlt_le, Rltb_true_iff, Hall.
      now right. }
    rewrite py_sum_cons, IZR_len_cons in Hmu. lra. }
  unfold len. lia.
Qed.

Lemma lower_semideviation_few (points : list R) :
  (len points <= 2)%Z -> lower_semideviation points = Ok 0.
Proof.
  intros H. destruct points as [|x l] eqn:E; [reflexivity|]. rewrite <- E in *.
  assert (Hne : points <> []) by (rewrite E; discriminate).
  rewrite (lower_semideviation_nonempty points Hne). cbv zeta.
  pose proof (below_mean_shorter points Hne) as Hb. cbv zeta in Hb.
  replace (len (filter (fun p => Rltb p (py_sum points / IZR (len points)))
                  points) <=? 1)%Z with true
    by (symmetry; apply Z.leb_le; lia).
  reflexivity.
Qed.

(** The squared deviations below the mean, averaged. *)
Lemma semivariance_bounds (mu m : R) (B : list R) :
  (0 < len B)%Z ->
  (forall b, In b B -> m <= b /\ b < mu) ->
  0 < py_sum (map (fun p => (mu - p) ^ 2) B) / IZR (len B) <= (mu - m) ^ 2.
Proof.
  intros HB H.
  assert (Hn : 0 < IZR (len B)) by (apply IZR_lt, HB).
  assert (Hlen : len (map (fun p => (mu - p) ^ 2) B) = len B)
    by (unfold len; now rewrite length_map).
  split.
  - apply Rdiv_lt_0_compat; [|exact Hn].
    apply py_sum_pos.
    + destruct B; [unfold len in HB; simpl in HB; lia | discriminate].
    + intros x Hx. apply in_map_iff in Hx. destruct Hx as (b & <- & Hb).
      destruct (H b Hb). apply pow_lt. lra.
  - assert (Hs : py_sum (map (fun p => (mu - p) ^ 2) B)
                 <= IZR (len B) * (mu - m) ^ 2).
    { rewrite <- Hlen. apply py_sum_le.
      intros x Hx. apply in_map_iff in Hx. destruct Hx as (b & <- & Hb).
      destruct (H b Hb). apply pow_incr. lra. }
    apply (Rmult_le_reg_l (IZR (len B))); [exact Hn|].
    replace (IZR (len B) * (py_sum (map (fun p => (mu - p) ^ 2) B)
                            / IZR (len B)))
      with (py_sum (map (fun p => (mu - p) ^ 2) B)) by (field; lra).
    exact Hs.
Qed.

Lemma list_lower_bound (l : list R) :
  exists m : R, forall x, In x l -> m <= x.
Proof.
  induction l as [|y l [m IH]].
  - exists 0. intros x [].
  - exists (Rmin y m). intros x [<-|Hx]; [apply Rmin_l|].
    eapply Rle_trans; [apply Rmin_r | now apply IH].
Qed.

Lemma lower_semideviation_value_nonempty (points : list R) :
  points <> [] ->
  let mu := py_sum points / IZR (len points) in
  let B := filter (fun p => Rltb p mu) points in
  exists s : R,
    lower_semideviation points = Ok s /\ 0 <= s /\
    (s = 0 <-> (len B <= 1)%Z) /\
    forall m : R, (forall x, In x points -> m <= x) -> s <= mu - m.
Proof.
  intros Hne mu B.
  rewrite (lower_semideviation_nonempty points Hne). fold mu. fold B.
  assert (Hmean : forall m, (forall x, In x points -> m <= x) -> m <= mu).
  { intros m Hm. pose proof (py_sum_ge points m Hm) as Hs.
    pose proof (IZR_len_pos points Hne) as Hn.
    unfold mu. apply (Rmult_le_reg_l (IZR (len points))); [exact Hn|].
    replace (IZR (len points) * (py_sum points / IZR (len points)))
      with (py_sum points) by (field; lra).
    exact Hs. }
  destruct (len B <=? 1)%Z eqn:E.
  - apply Z.leb_le in E. exists 0. split; [reflexivity|].
    split; [lra|]. split; [tauto|].
    intros m Hm. specialize (Hmean m Hm). lra.
  - apply Z.leb_gt in E. eexists. split; [reflexivity|].
    assert (HB : forall m, (forall x, In x points -> m <= x) ->
                 forall b, In b B -> m <= b /\ b < mu).
    { intros m Hm b Hb. unfold B in Hb. apply filter_In in Hb.
      destruct Hb as [Hb1 Hb2]. apply Rltb_true_iff in Hb2. auto. }
    split; [apply sqrt_pos|]. split.
    + split; [|lia]. intros Hz. exfalso.
      destruct (list_lower_bound points) as [m0 Hlow].
      pose proof (semivariance_bounds mu m0 B ltac:(lia) (HB _ Hlow))
        as [Hp _].
      apply sqrt_lt_R0 in Hp. lra.
    + intros m Hm.
      pose proof (semivariance_bounds mu m B ltac:(lia) (HB m Hm)) as [Hp Hu].
      specialize (Hmean m Hm).
      rewrite <- (sqrt_pow2 (mu - m)) by lra.
      apply sqrt_le_1; lra.
Qed.

(** The value of [lower_semideviation]: not negative, zero exactly when at
    most one point is below the mean, and at most the distance from the
    mean to a lower bound of the points. *)
Lemma lower_semideviation_value (points : list R) :
  let mu := py_sum points / IZR (len points) in
  let B := filter (fun p => Rltb p mu) points in
  exists s : R,
    lower_semideviation points = Ok s /\ 0 <= s /\
    (s = 0 <-> (len B <= 1)%Z) /\
    forall m : R, points <> [] -> (forall x, In x points -> m <= x) ->
      s <= mu - m.
Proof.
  destruct points as [|x0 l0].
  - exists 0. simpl. repeat split; try lra; try reflexivity.
    + intros _. unfold len. simpl. lia.
    + intros m Hne. contradiction.
  - intros mu B.
    destruct (lower_semideviation_value_nonempty (x0 :: l0) ltac:(discriminate))
      as (s & H1 & H2 & H3 & H4).
    exists s. repeat split; auto; try apply H3.
Qed.



(** * Further properties of the report rows *)

Lemma py_sorted_Sorted (l : list R) : Sorted Rle (py_sorted l).
Proof. exact (sort_by_sorted (fun x => x) l). Qed.

Lemma py_sorted_In (l : list R) (x : R) : In x (py_sorted l) <-> In x l.
Proof. apply (sort_by_In (fun x => x)). Qed.

Lemma item_In (l : list R) (i : Z) : (0 <= i < len l)%Z -> In (item l i) l.
Proof. intros H. unfold item. apply nth_In. unfold len in H. lia. Qed.

(** On a sorted non-empty list the percentiles of two fractions in [0,1]
    are in the order of the fractions, between the first and the last
    item. *)
Lemma percentile_pair_sorted (l : list R) (p q : R) :
  Sorted Rle l -> l <> [] -> 0 <= p -> p <= q -> q <= 1 ->
  exists vp vq : R,
    percentile l p = Ok (Some vp) /\ percentile l q = Ok (Some vq) /\
    item l 0 <= vp /\ vp <= vq /\ vq <= item l (len l - 1).
Proof.
  intros HS Hne Hp Hpq Hq.
  pose proof (len_pos_of_nonempty l Hne) as Hn.
  destruct (Z.eq_dec (len l) 1) as [E1|E1].
  - exists (item l 0), (item l 0). rewrite !percentile_single by exact E1.
    rewrite E1. simpl. repeat split; lra.
  - exists (interpolated l p), (interpolated l q).
    rewrite !percentile_interpolated by (lia || lra).
    split; [reflexivity|]. split; [reflexivity|].
    pose proof (interpolated_between l p HS ltac:(lia) ltac:(lra)) as Bp.
    pose proof (interpolated_between l q HS ltac:(lia) ltac:(lra)) as Bq.
    cbv zeta in Bp, Bq.
    destruct (ranks_in_range (len l) p ltac:(lia) ltac:(lra)) as (Pl & Pm & Ph).
    destruct (ranks_in_range (len l) q ltac:(lia) ltac:(lra)) as (Ql & Qm & Qh).
    pose proof (Sorted_item_le l HS 0 (Zfloor (IZR (len l - 1) * p))
                  ltac:(lia) ltac:(lia)).
    pose proof (Sorted_item_le l HS (Zceil (IZR (len l - 1) * q))
                  (len l - 1) ltac:(lia) ltac:(lia)).
    split; [lra|]. split; [|lra].
    apply interpolated_mono; (assumption || lia).
Qed.

Lemma len_py_sorted (l : list R) : len (py_sorted l) = len l.
Proof. unfold len, py_sorted. now rewrite sort_by_length. Qed.







(** * Further properties of the aggregator *)

Lemma dict_set_set (d : player_dict) (k : string) (a b : player_info) :
  dict_set (dict_set d k a) k b = dict_set d k b.
Proof.
  induction d as [|[k0 v0] d IH]; simpl.
  - now rewrite String.eqb_refl.
  - destruct (String.eqb k k0) eqn:E; simpl; rewrite E; [reflexivity|].
    now rewrite IH.
Qed.

Lemma dd_update_dict_set (d : player_dict) (k : string)
  (f : player_info -> player_info) :
  dd_update d k f = dict_set d k (f (entry d k)).
Proof.
  unfold dd_update, dd_getitem, entry.
  destruct (dict_get d k); [reflexivity | apply dict_set_set].
Qed.

Lemma dd_getitem_dict_set (d : player_dict) (k : string) (v : player_info) :
  dd_getitem (dict_set d k v) k = (dict_set d k v, v).
Proof.
  unfold dd_getitem. now rewrite dict_get_set, String.eqb_refl.
Qed.

Lemma entry_dict_set (d : player_dict) (k : string) (v : player_info) :
  entry (dict_set d k v) k = v.
Proof. unfold entry. now rewrite dict_get_set, String.eqb_refl. Qed.

(** One fold step is one assignment to the key of the player. *)
Lemma record_game_dict_set (pd : player_dict) (g : game_record) :
  record_game pd g =
  dict_set pd (g_player g)
    (let e := entry pd (g_player g) in
     let newer := is_newer (g_date g) (most_recent_date e) in
     {| points := points e ++ [g_points g];
        most_recent_date :=
          if newer then Some (g_date g) else most_recent_date e;
        current_team := if newer then Some (g_team g) else current_team e |}).
Proof.
  unfold record_game. rewrite dd_update_dict_set, dd_getitem_dict_set.
  cbn [most_recent_date]. cbv zeta.
  fold (is_newer (g_date g) (most_recent_date (entry pd (g_player g)))).
  destruct (is_newer (g_date g) (most_recent_date (entry pd (g_player g)))).
  - rewrite !dd_update_dict_set, !entry_dict_set, !dict_set_set.
    reflexivity.
  - reflexivity.
Qed.

Lemma datetime_gt_false (a b : datetime) :
  datetime_gt a b = false <->
  (year a < year b \/
   (year a = year b /\
    (month a < month b \/ (month a = month b /\ day a <= day b))))%Z.
Proof.
  rewrite <- not_true_iff_false, datetime_gt_spec. lia.
Qed.

Ltac date_order :=
  repeat match goal with
         | H : datetime_gt _ _ = true |- _ => apply datetime_gt_spec in H
         | H : datetime_gt _ _ = false |- _ => apply datetime_gt_false in H
         | |- datetime_gt _ _ = true => apply datetime_gt_spec
         | |- datetime_gt _ _ = false => apply datetime_gt_false
         end;
  lia.

(** [latest_from best rest] is a record of [best :: rest] that no record
    is newer than, and that is newer than every record before it. *)
Lemma latest_from_spec (rest : list game_record) :
  forall best : game_record,
    let g0 := latest_from best rest in
    (forall g, In g (best :: rest) -> datetime_gt (g_date g) (g_date g0) = false)
    /\ exists pre post : list game_record,
         best :: rest = pre ++ g0 :: post /\
         forall g, In g pre -> datetime_gt (g_date g0) (g_date g) = true.
Proof.
  induction rest as [|g rest IH]; intros best; simpl.
  - split.
    + intros x [<-|[]]. apply datetime_gt_irrefl.
    + exists [], []. split; [reflexivity | intros x []].
  - destruct (datetime_gt (g_date g) (g_date best)) eqn:E.
    + destruct (IH g) as (Hmax & pre & post & Hsplit & Hpre).
      cbv zeta in Hmax, Hsplit, Hpre.
      set (g0 := latest_from g rest) in *.
      assert (Hg : datetime_gt (g_date g) (g_date g0) = false)
        by (apply Hmax; now left).
      split.
      * intros x [<-|Hx]; [date_order | now apply Hmax].
      * exists (best :: pre), post. split; [now rewrite Hsplit|].
        intros x [<-|Hx]; [date_order | now apply Hpre].
    + destruct (IH best) as (Hmax & pre & post & Hsplit & Hpre).
      cbv zeta in Hmax, Hsplit, Hpre.
      set (g0 := latest_from best rest) in *.
      assert (Hb : datetime_gt (g_date best) (g_date g0) = false)
        by (apply Hmax; now left).
      split.
      * intros x [<-|[<-|Hx]].
        -- exact Hb.
        -- date_order.
        -- apply Hmax. now right.
      * destruct pre as [|b pre].
        -- simpl in Hsplit. injection Hsplit as Hb' Hr.
           exists [], (g :: post). split; [simpl; congruence | intros x []].
        -- simpl in Hsplit. injection Hsplit as Hb' Hr. subst b.
           exists (best :: g :: pre), post. split; [simpl; congruence|].
           assert (Hbest : datetime_gt (g_date g0) (g_date best) = true)
             by (apply Hpre; now left).
           intros x [<-|[<-|Hx]].
           ++ exact Hbest.
           ++ date_order.
           ++ apply Hpre. now right.
Qed.

(** The date and the team stored for a player after a fold that starts
    from a state holding the date and the team of [best]. *)
Lemma fold_record_game_latest (records : list game_record) :
  forall (pd : player_dict) (k : string) (best : game_record),
    most_recent_date (entry pd k) = Some (g_date best) ->
    current_team (entry pd k) = Some (g_team best) ->
    let g0 := latest_from best (records_of k records) in
    let e := entry (fold_left record_game records pd) k in
    most_recent_date e = Some (g_date g0) /\
    current_team e = Some (g_team g0).
Proof.
  induction records as [|g records IH]; intros pd k best Hd Ht; simpl.
  - now split.
  - rewrite (String.eqb_sym (g_player g) k).
    destruct (String.eqb_spec k (g_player g)) as [->|Hk].
    + simpl. apply IH.
      * rewrite entry_record_game, String.eqb_refl. cbv zeta. simpl.
        rewrite Hd. simpl.
        now destruct (datetime_gt (g_date g) (g_date best)).
      * rewrite entry_record_game, String.eqb_refl. cbv zeta. simpl.
        rewrite Hd. simpl.
        now destruct (datetime_gt (g_date g) (g_date best)).
    + apply IH.
      * rewrite entry_record_game.
        now destruct (String.eqb_spec k (g_player g)).
      * rewrite entry_record_game.
        now destruct (String.eqb_spec k (g_player g)).
Qed.

Lemma fold_record_game_other (records : list game_record) :
  forall (pd : player_dict) (k : string),
    records_of k records = [] ->
    dict_get (fold_left record_game records pd) k = dict_get pd k.
Proof.
  induction records as [|g records IH]; intros pd k H; simpl; [reflexivity|].
  simpl in H. rewrite (String.eqb_sym (g_player g) k) in H.
  destruct (String.eqb k (g_player g)) eqn:E; [discriminate|].
  rewrite IH by exact H. rewrite dict_get_record_game. now rewrite E.
Qed.

(** The state of a player after a fold from the empty dict. *)
Lemma fold_record_game_entry (records : list game_record) (k : string) :
  let e := entry (fold_left record_game records []) k in
  most_recent_date e = option_map g_date (latest (records_of k records)) /\
  current_team e = option_map g_team (latest (records_of k records)).
Proof.
  assert (G : forall pd, dict_get pd k = None ->
    let e := entry (fold_left record_game records pd) k in
    most_recent_date e = option_map g_date (latest (records_of k records)) /\
    current_team e = option_map g_team (latest (records_of k records))).
  { induction records as [|g records IH]; intros pd Hnone; simpl.
    - unfold entry. rewrite Hnone. now split.
    - rewrite (String.eqb_sym (g_player g) k).
      destruct (String.eqb_spec k (g_player g)) as [->|Hk].
      + simpl. apply fold_record_game_latest.
        * rewrite entry_record_game, String.eqb_refl. cbv zeta.
          unfold entry. rewrite Hnone. reflexivity.
        * rewrite entry_record_game, String.eqb_refl. cbv zeta.
          unfold entry. rewrite Hnone. reflexivity.
      + apply IH. rewrite dict_get_record_game.
        now destruct (String.eqb_spec k (g_player g)). }
  apply G. reflexivity.
Qed.

(** X8. After a fold of records from the empty dict, the date and the
    team stored for a player are those of one of the player's records: the
    first, in the order of arrival, of the records that have the greatest
    date.  No record of the player is newer, and every record of the
    player that came before it is strictly older. *)
Theorem current_team_of_latest (records : list game_record) (player : string) :
  let mine := records_of player records in
  let e := entry (fold_left record_game records []) player in
  (mine = [] -> most_recent_date e = None /\ current_team e = None) /\
  (mine <> [] ->
   exists (g0 : game_record) (pre post : list game_record),
     mine = pre ++ g0 :: post /\
     most_recent_date e = Some (g_date g0) /\
     current_team e = Some (g_team g0) /\
     (forall g, In g mine -> datetime_gt (g_date g) (g_date g0) = false) /\
     (forall g, In g pre -> datetime_gt (g_date g0) (g_date g) = true)).
Proof.
  intros mine e.
  destruct (fold_record_game_entry records player) as [Hd Ht].
  fold mine e in Hd, Ht.
  split.
  - intros E. rewrite E in Hd, Ht. now split.
  - intros Hne. destruct mine as [|b rest] eqn:Em; [contradiction|].
    simpl in Hd, Ht.
    destruct (latest_from_spec rest b) as (Hmax & pre & post & Hs & Hpre).
    exists (latest_from b rest), pre, post. auto.
Qed.

Lemma current_team_of_latest_witness :
  let g1 := mk_game "Dejounte Murray" 18 (mk_datetime 2024 1 5) "ATL" in
  let g2 := mk_game "Dejounte Murray" 22 (mk_datetime 2024 1 5) "NOP" in
  exists (g0 : game_record) (pre post : list game_record),
    [g1; g2] = pre ++ g0 :: post /\
    current_team (entry (fold_left record_game [g1; g2] []) "Dejounte Murray")
    = Some (g_team g0) /\
    forall g, In g pre -> datetime_gt (g_date g0) (g_date g) = true.
Proof.
  intros g1 g2.
  destruct (proj2 (current_team_of_latest [g1; g2] "Dejounte Murray")
              ltac:(discriminate))
    as (g0 & pre & post & Hs & _ & Ht & _ & Hpre).
  exists g0, pre, post. auto.
Defined.

Lemma fold_left_flat_map {A B C : Type} (f : C -> B -> C) (g : A -> list B)
  (l : list A) :
  forall c : C,
    fold_left f (flat_map g l) c =
    fold_left (fun c a => fold_left f (g a) c) l c.
Proof.
  induction l as [|a l IH]; intros c; simpl; [reflexivity|].
  now rewrite fold_left_app, IH.
Qed.

Lemma fold_left_ext {A B : Type} (f g : A -> B -> A) (l : list B) :
  (forall a b, f a b = g a b) ->
  forall a : A, fold_left f l a = fold_left g l a.
Proof.
  intros H. induction l as [|b l IH]; intros a; simpl; [reflexivity|].
  now rewrite H, IH.
Qed.

Section ComposeFacts.
Variable py_float : string -> option R.
Variable strptime : string -> string -> option datetime.

Lemma fold_process_row_records (rows : list csv_row) (pd : player_dict) :
  fold_left (process_row py_float strptime) rows pd =
  fold_left record_game (records_of_rows py_float strptime rows) pd.
Proof.
  unfold records_of_rows. rewrite fold_left_flat_map.
  apply fold_left_ext. intros a row. unfold process_row.
  now destruct (parse_row py_float strptime row).
Qed.

(** The dict of a directory is the fold of the records of its selected
    files. *)
Lemma parse_all_team_files_records (dir : directory) :
  parse_all_team_files py_float strptime dir =
  fold_left record_game (records_of_directory py_float strptime dir) [].
Proof.
  unfold parse_all_team_files, records_of_directory.
  rewrite fold_left_flat_map. apply fold_left_ext.
  intros pd [filename rows]. simpl.
  destruct (file_selected filename); [apply fold_process_row_records|].
  reflexivity.
Qed.

Lemma In_records_of_rows (rows : list csv_row) (g : game_record) :
  In g (records_of_rows py_float strptime rows) <->
  exists row, In row rows /\ parse_row py_float strptime row = Some g.
Proof.
  unfold records_of_rows. rewrite in_flat_map. split.
  - intros (row & Hr & Hg). exists row. split; [exact Hr|].
    destruct (parse_row py_float strptime row) as [g'|]; [|contradiction].
    destruct Hg as [<-|[]]. reflexivity.
  - intros (row & Hr & Hg). exists row. split; [exact Hr|].
    rewrite Hg. now left.
Qed.

Lemma In_records_of_directory (dir : directory) (g : game_record) :
  In g (records_of_directory py_float strptime dir) <->
  exists (filename : string) (rows : list csv_row) (row : csv_row),
    In (filename, rows) dir /\ file_selected filename = true /\
    In row rows /\ parse_row py_float strptime row = Some g.
Proof.
  unfold records_of_directory. rewrite in_flat_map. split.
  - intros ([filename rows] & Hf & Hg). simpl in Hg.
    destruct (file_selected filename) eqn:E; [|contradiction].
    apply In_records_of_rows in Hg. destruct Hg as (row & Hr & Hp).
    exists filename, rows, row. auto.
  - intros (filename & rows & row & Hf & Hs & Hr & Hp).
    exists (filename, rows). split; [exact Hf|]. simpl. rewrite Hs.
    apply In_records_of_rows. exists row. auto.
Qed.

End ComposeFacts.

(** The keys of a dict after an assignment. *)
Lemma keys_dict_set (d : player_dict) (k : string) (v : player_info) :
  map fst (dict_set d k v) =
  if existsb (String.eqb k) (map fst d) then map fst d else map fst d ++ [k].
Proof.
  induction d as [|[k0 v0] d IH]; simpl; [reflexivity|].
  destruct (String.eqb k k0); simpl; [reflexivity|].
  rewrite IH. now destruct (existsb (String.eqb k) (map fst d)).
Qed.

Lemma existsb_eqb_app (y x : string) (keys : list string) :
  existsb (String.eqb y) (keys ++ [x]) =
  existsb (String.eqb y) keys || String.eqb y x.
Proof. rewrite existsb_app. simpl. now rewrite orb_false_r. Qed.

Lemma filter_new_known (keys : list string) (x : string) (X : list string) :
  existsb (String.eqb x) keys = true ->
  filter (fun y => negb (existsb (String.eqb y) keys))
         (filter (fun y => negb (String.eqb y x)) X) =
  filter (fun y => negb (existsb (String.eqb y) keys)) X.
Proof.
  intros Hx. induction X as [|y X IH]; simpl; [reflexivity|].
  destruct (String.eqb_spec y x) as [->|Hy]; simpl.
  - rewrite Hx. simpl. exact IH.
  - now rewrite IH.
Qed.

Lemma filter_new_app (keys : list string) (x : string) (X : list string) :
  filter (fun y => negb (existsb (String.eqb y) (keys ++ [x]))) X =
  filter (fun y => negb (existsb (String.eqb y) keys))
         (filter (fun y => negb (String.eqb y x)) X).
Proof.
  induction X as [|y X IH]; simpl; [reflexivity|].
  rewrite existsb_eqb_app, IH.
  destruct (String.eqb y x); simpl.
  - now rewrite orb_true_r.
  - now rewrite orb_false_r.
Qed.

Lemma keys_fold_record_game (records : list game_record) :
  forall pd : player_dict,
    map fst (fold_left record_game records pd) =
    map fst pd ++
    filter (fun y => negb (existsb (String.eqb y) (map fst pd)))
           (first_seen (map g_player records)).
Proof.
  induction records as [|g records IH]; intros pd; simpl.
  - now rewrite app_nil_r.
  - rewrite IH, record_game_dict_set, keys_dict_set.
    destruct (existsb (String.eqb (g_player g)) (map fst pd)) eqn:E; simpl.
    + now rewrite filter_new_known.
    + rewrite filter_new_app, <- app_assoc. reflexivity.
Qed.

Lemma filter_true {A : Type} (l : list A) : filter (fun _ => true) l = l.
Proof. induction l as [|x l IH]; simpl; [reflexivity | now rewrite IH]. Qed.

Lemma keys_fold_record_game_nil (records : list game_record) :
  map fst (fold_left record_game records []) =
  first_seen (map g_player records).
Proof. rewrite keys_fold_record_game. simpl. apply filter_true. Qed.

(** The games of a dict after an assignment. *)
Lemma total_games_dict_set (d : player_dict) (k : string) (v : player_info) :
  (total_games (dict_set d k v) + length (points (entry d k)))%nat =
  (total_games d + length (points v))%nat.
Proof.
  unfold total_games, entry.
  induction d as [|[k0 v0] d IH]; simpl.
  - lia.
  - destruct (String.eqb k k0); simpl; [lia|].
    destruct (dict_get d k); simpl in IH |- *; lia.
Qed.

Lemma total_games_fold_record_game (records : list game_record) :
  forall pd : player_dict,
    total_games (fold_left record_game records pd) =
    (total_games pd + length records)%nat.
Proof.
  induction records as [|g records IH]; intros pd; simpl; [lia|].
  rewrite IH, record_game_dict_set.
  pose proof (total_games_dict_set pd (g_player g)
    (let e := entry pd (g_player g) in
     let newer := is_newer (g_date g) (most_recent_date e) in
     {| points := points e ++ [g_points g];
        most_recent_date :=
          if newer then Some (g_date g) else most_recent_date e;
        current_team := if newer then Some (g_team g) else current_team e |}))
    as H.
  cbv zeta in H |- *. simpl points in H. rewrite length_app in H. simpl in H.
  lia.
Qed.

(** The rows built for a dict whose players all have a game: one row for
    each player, in the order of the dict. *)
Lemma build_results_fields (data : player_dict) :
  (forall player info, In (player, info) data -> points info <> []) ->
  exists results : list stat_row,
    build_results data = Ok results /\
    map r_player results = map fst data /\
    map r_team results = map (fun e => current_team (snd e)) data /\
    map r_games_played results = map (fun e => len (points (snd e))) data.
Proof.
  induction data as [|[player info] data IH]; intros H.
  - exists []. now repeat split.
  - destruct IH as (results & Hr & Hp & Ht & Hg).
    { intros p i Hpi. apply (H p i). now right. }
    destruct (build_row_nonempty player info (H player info (or_introl eq_refl)))
      as (s & a & b & c & _ & _ & _ & _ & Hb).
    eexists. simpl. rewrite Hb. cbn [bind]. rewrite Hr. cbn [bind].
    split; [reflexivity|]. simpl. now rewrite Hp, Ht, Hg.
Qed.

Lemma Permutation_list_sum_Z (l l' : list Z) :
  Permutation l l' -> fold_right Z.add 0%Z l = fold_right Z.add 0%Z l'.
Proof. induction 1; simpl; lia. Qed.

Lemma total_games_as_Z (d : player_dict) :
  fold_right Z.add 0%Z (map (fun e => len (points (snd e))) d) =
  Z.of_nat (total_games d).
Proof.
  unfold total_games, len. induction d as [|e d IH]; simpl; [reflexivity|].
  rewrite IH. lia.
Qed.

Section AggregationFacts.
Variable py_float : string -> option R.
Variable strptime : string -> string -> option datetime.

Local Abbreviation parse_dir := (parse_all_team_files py_float strptime).
Local Abbreviation records_dir := (records_of_directory py_float strptime).

(** X9. The dict of a directory is the fold of the aggregator over the
    records of the rows that pass the checks in the selected files, file
    after file in the order of the listing and row after row; the files
    that are not selected and the rows that fail a check leave no trace.
    The points of a player are the points of the player's records in that
    order. *)
Theorem aggregation_of_valid_rows (dir : directory) :
  parse_dir dir = fold_left record_game (records_dir dir) [] /\
  (forall g : game_record,
     In g (records_dir dir) <->
     exists (filename : string) (rows : list csv_row) (row : csv_row),
       In (filename, rows) dir /\ file_selected filename = true /\
       In row rows /\ parse_row py_float strptime row = Some g) /\
  (forall player : string,
     points (entry (parse_dir dir) player) =
     map g_points (records_of player (records_dir dir))) /\
  (forall dir' : directory,
     records_dir (dir ++ dir') = records_dir dir ++ records_dir dir') /\
  (forall (filename : string) (rows : list csv_row),
     file_selected filename = false -> records_dir [(filename, rows)] = []).
Proof.
  split; [apply parse_all_team_files_records|].
  split; [intros g; apply In_records_of_directory|].
  split.
  - intros player. rewrite parse_all_team_files_records.
    rewrite points_fold_record_game. reflexivity.
  - split.
    + intros dir'. unfold records_of_directory. apply flat_map_app.
    + intros filename rows H. unfold records_of_directory. simpl.
      now rewrite H.
Qed.


(** X11. Every record is counted once: the games of all the players of the
    dict together are as many as the records, and so are the games of all
    the rows of the report. *)
Theorem every_record_counted_once (dir : directory) :
  total_games (parse_dir dir) = length (records_dir dir) /\
  exists rows : list stat_row,
    main_rows py_float strptime dir = Ok rows /\
    fold_right Z.add 0%Z (map r_games_played rows) =
    Z.of_nat (length (records_dir dir)).
Proof.
  assert (T : total_games (parse_dir dir) = length (records_dir dir)).
  { rewrite parse_all_team_files_records, total_games_fold_record_game.
    reflexivity. }
  split; [exact T|].
  destruct (build_results_fields (parse_dir dir))
    as (results & Hr & _ & _ & Hg).
  { intros player info Hpi.
    apply (items_have_game py_float strptime dir player info Hpi). }
  exists (sort_by r_std_dev results). split.
  - unfold main_rows, report. now rewrite Hr.
  - rewrite (Permutation_list_sum_Z _ (map r_games_played results))
      by (apply Permutation_map, sort_by_perm).
    now rewrite Hg, total_games_as_Z, T.
Qed.

(** X12. The date and the team of every player of the dict are those of
    one record of that player, a record of a row of a selected file; the
    name of the player and the team are not empty strings. *)
Theorem stored_team_of_a_row (dir : directory) (player : string)
  (info : player_info) :
  In (player, info) (parse_dir dir) ->
  player <> ""%string /\
  exists g : game_record,
    In g (records_dir dir) /\ g_player g = player /\
    most_recent_date info = Some (g_date g) /\
    current_team info = Some (g_team g) /\ g_team g <> ""%string.
Proof.
  intros Hin.
  destruct (parse_all_team_files_well_formed py_float strptime dir) as [Hn _].
  pose proof (In_dict_get _ _ _ Hn Hin) as Hget.
  assert (He : entry (parse_dir dir) player = info)
    by (unfold entry; now rewrite Hget).
  rewrite parse_all_team_files_records in Hget, He.
  destruct (fold_record_game_entry (records_dir dir) player) as [Hd Ht].
  rewrite He in Hd, Ht.
  destruct (records_of player (records_dir dir)) as [|b rest] eqn:Em.
  { exfalso.
    assert (dict_get (fold_left record_game (records_dir dir) []) player
            = None)
      by (apply dict_get_fold_record_game; split; [reflexivity | exact Em]).
    congruence. }
  simpl in Hd, Ht.
  destruct (latest_from_spec rest b) as (_ & pre & post & Hs & _).
  assert (Hg0 : In (latest_from b rest) (records_of player (records_dir dir))).
  { rewrite Em, Hs. apply in_or_app. right. now left. }
  unfold records_of in Hg0. apply filter_In in Hg0.
  destruct Hg0 as [Hg0 Hp]. apply String.eqb_eq in Hp.
  pose proof (proj1 (In_records_of_directory py_float strptime dir _) Hg0)
    as (filename & rows & row & _ & _ & _ & Hrow).
  apply parse_row_Some in Hrow.
  destruct Hrow as (ps & ds & _ & Hpn & _ & _ & _ & _ & _ & Htn & _).
  split; [now rewrite <- Hp|].
  exists (latest_from b rest). auto.
Qed.

End AggregationFacts.

Lemma stored_team_of_a_row_witness :
  exists g : game_record,
    In g (records_of_directory example_float example_strptime
                               example_directory) /\
    g_player g = "Dejounte Murray"%string /\
    Some (mk_datetime 2024 1 5) = Some (g_date g) /\
    Some "NOP"%string = Some (g_team g) /\ g_team g <> ""%string.
Proof.
  apply (stored_team_of_a_row example_float example_strptime example_directory
           "Dejounte Murray"
           (mk_info [18; 22] (Some (mk_datetime 2024 1 5))
                    (Some "NOP"%string))).
  rewrite example_directory_parsed. right. left. reflexivity.
Defined.

(** * The order of the listing *)

(** The items equal to [k] are the same in two lists with the same items. *)
Lemma with_key_id_perm (k : R) (l l' : list R) :
  Permutation l l' ->
  with_key (fun x => x) k l = with_key (fun x => x) k l'.
Proof.
  unfold with_key. induction 1 as [|x l l' _ IH|x y l|l l' l'' _ IH1 _ IH2];
    simpl.
  - reflexivity.
  - now rewrite IH.
  - destruct (Req_dec_T y k) as [Ey|Ey]; destruct (Req_dec_T x k) as [Ex|Ex];
      try reflexivity. congruence.
  - congruence.
Qed.

(** [sorted] gives the same list for the same items in any order. *)
Lemma py_sorted_perm (l l' : list R) :
  Permutation l l' -> py_sorted l = py_sorted l'.
Proof.
  intros H. unfold py_sorted. apply (sorted_stable_unique (fun x => x)).
  - apply sort_by_sorted.
  - apply sort_by_sorted.
  - intros k. rewrite !sort_by_stable. now apply with_key_id_perm.
Qed.

Lemma records_of_perm (player : string) (l l' : list game_record) :
  Permutation l l' -> Permutation (records_of player l) (records_of player l').
Proof.
  unfold records_of. induction 1 as [|x l l' _ IH|x y l|l l' l'' _ IH1 _ IH2];
    simpl.
  - constructor.
  - destruct (String.eqb (g_player x) player); [now constructor | exact IH].
  - destruct (String.eqb (g_player y) player);
      destruct (String.eqb (g_player x) player);
      try apply Permutation_refl. apply perm_swap.
  - eapply perm_trans; eassumption.
Qed.

Section ListingOrder.
Variable py_float : string -> option R.
Variable strptime : string -> string -> option datetime.


End ListingOrder.


Lemma latest_spec (l : list game_record) (g0 : game_record) :
  latest l = Some g0 ->
  In g0 l /\ forall g, In g l -> datetime_gt (g_date g) (g_date g0) = false.
Proof.
  destruct l as [|b rest]; cbn [latest]; [discriminate|].
  intros H. injection H as <-.
  destruct (latest_from_spec rest b) as (Hmax & pre & post & Hs & _).
  split; [|exact Hmax]. rewrite Hs. apply in_or_app. right. now left.
Qed.

Lemma datetime_eq_of_not_gt (a b : datetime) :
  datetime_gt a b = false -> datetime_gt b a = false -> a = b.
Proof.
  intros H1 H2. apply datetime_gt_false in H1, H2.
  destruct a as [ya ma da], b as [yb mb db]. simpl in *.
  assert (ya = yb /\ ma = mb /\ da = db) as (-> & -> & ->) by lia.
  reflexivity.
Qed.

(** The latest records of two lists with the same records have the same
    date. *)
Lemma latest_perm (l l' : list game_record) :
  Permutation l l' ->
  option_map g_date (latest l) = option_map g_date (latest l') /\
  forall g0 g0', latest l = Some g0 -> latest l' = Some g0' ->
    In g0 l /\ In g0' l /\ g_date g0 = g_date g0'.
Proof.
  intros Hp.
  assert (G : forall g0 g0', latest l = Some g0 -> latest l' = Some g0' ->
              In g0 l /\ In g0' l /\ g_date g0 = g_date g0').
  { intros g0 g0' H H'.
    apply latest_spec in H, H'. destruct H as [Hi Hm], H' as [Hi' Hm'].
    assert (In g0' l) by (eapply Permutation_in; [apply Permutation_sym|];
                          eassumption).
    assert (In g0 l') by (eapply Permutation_in; eassumption).
    split; [exact Hi|]. split; [assumption|].
    apply datetime_eq_of_not_gt; auto. }
  split; [|exact G].
  destruct (latest l) as [g0|] eqn:E; destruct (latest l') as [g0'|] eqn:E'.
  - simpl. f_equal. now apply (G g0 g0').
  - destruct l' as [|? ?]; [|discriminate].
    apply Permutation_sym, Permutation_nil in Hp. subst l. discriminate.
  - destruct l as [|? ?]; [|discriminate].
    apply Permutation_nil in Hp. subst l'. discriminate.
  - reflexivity.
Qed.

Section ListingOrderTeam.
Variable py_float : string -> option R.
Variable strptime : string -> string -> option datetime.

(** X14. Two listings of the same files in different orders give every
    player the same most recent date; they give the same team as well when
    the records of the player that share a date share the team. *)
Theorem listing_order_keeps_date (dir dir' : directory) (player : string) :
  Permutation dir dir' ->
  let mine :=
    records_of player (records_of_directory py_float strptime dir) in
  let e := entry (parse_all_team_files py_float strptime dir) player in
  let e' := entry (parse_all_team_files py_float strptime dir') player in
  most_recent_date e = most_recent_date e' /\
  ((forall g g', In g mine -> In g' mine -> g_date g = g_date g' ->
                 g_team g = g_team g') ->
   current_team e = current_team e').
Proof.
  intros Hperm mine e e'.
  assert (Hrec : Permutation mine
                   (records_of player
                      (records_of_directory py_float strptime dir'))).
  { apply records_of_perm. unfold records_of_directory.
    now apply Permutation_flat_map. }
  destruct (latest_perm _ _ Hrec) as [Hd Hg].
  unfold e, e'. rewrite !parse_all_team_files_records.
  destruct (fold_record_game_entry
              (records_of_directory py_float strptime dir) player)
    as [D T].
  destruct (fold_record_game_entry
              (records_of_directory py_float strptime dir') player)
    as [D' T'].
  fold mine in D, T. rewrite D, D', T, T'.
  split; [exact Hd|].
  intros Hteam.
  destruct (latest mine) as [g0|] eqn:E;
    destruct (latest (records_of player
                        (records_of_directory py_float strptime dir')))
      as [g0'|] eqn:E'; simpl in Hd |- *; try discriminate; [|reflexivity].
  destruct (Hg g0 g0' eq_refl eq_refl) as (Hi & Hi' & Hdate).
  f_equal. now apply Hteam.
Qed.

End ListingOrderTeam.

Lemma listing_order_keeps_date_witness :
  current_team
    (entry (parse_all_team_files example_float example_strptime
              example_directory) "Dejounte Murray") =
  current_team
    (entry (parse_all_team_files example_float example_strptime
              (rev example_directory)) "Dejounte Murray").
Proof.
  apply (listing_order_keeps_date example_float example_strptime
           example_directory (rev example_directory) "Dejounte Murray"
           (Permutation_rev example_directory)).
  intros g g' [<-|[<-|[]]] [<-|[<-|[]]]; simpl; intros H;
    (reflexivity || discriminate).
Defined.

(** * Properties of the sinks *)

Lemma NoDup_map_injective {A B : Type} (f : A -> B) (l : list A) :
  (forall x y, f x = f y -> x = y) -> NoDup l -> NoDup (map f l).
Proof.
  intros Hf. induction 1 as [|x l Hx _ IH]; simpl; constructor; [|exact IH].
  intros Hin. apply in_map_iff in Hin. destruct Hin as (y & Hy & Hyl).
  apply Hf in Hy. now subst y.
Qed.

Lemma grid_succ (rows cols : nat) :
  grid (S rows) cols =
  grid rows cols ++ map (fun c => (Z.of_nat rows, Z.of_nat c)) (seq 0 cols).
Proof.
  unfold grid. rewrite seq_S, flat_map_app. simpl. now rewrite app_nil_r.
Qed.

Lemma In_grid (rows cols : nat) (r c : Z) :
  In (r, c) (grid rows cols) <->
  (0 <= r < Z.of_nat rows /\ 0 <= c < Z.of_nat cols)%Z.
Proof.
  unfold grid. rewrite in_flat_map. split.
  - intros (i & Hi & Hc). apply in_map_iff in Hc.
    destruct Hc as (j & E & Hj). injection E as <- <-.
    apply in_seq in Hi, Hj. lia.
  - intros [Hr Hc]. exists (Z.to_nat r). split; [apply in_seq; lia|].
    apply in_map_iff. exists (Z.to_nat c). split; [|apply in_seq; lia].
    f_equal; lia.
Qed.

Lemma NoDup_grid (rows cols : nat) : NoDup (grid rows cols).
Proof.
  induction rows as [|n IH].
  - constructor.
  - rewrite grid_succ. apply NoDup_app; [exact IH| |].
    + apply NoDup_map_injective; [|apply seq_NoDup].
      intros x y E. injection E as E. lia.
    + intros [r c] Hin Hin'. apply In_grid in Hin.
      apply in_map_iff in Hin'. destruct Hin' as (j & E & _).
      injection E as E _. lia.
Qed.

Section SinkFacts.
Variable format_float : R -> nat -> nat -> string.
Variable py_round : R -> Z -> R.

Local Abbreviation export' := (export py_round).
Local Abbreviation run_sinks' := (run_sinks format_float py_round).

Lemma format_row_complete (r : stat_row) :
  row_complete r = true <-> exists line, format_row format_float r = Some line.
Proof.
  unfold row_complete, format_row.
  destruct (r_team r), (r_p10 r), (r_p20 r), (r_p30 r); split;
    try discriminate; try (intros [line H]; discriminate);
    try (intros _; eexists; reflexivity); reflexivity.
Qed.

Lemma format_row_incomplete (r : stat_row) :
  row_complete r = false <-> format_row format_float r = None.
Proof.
  unfold row_complete, format_row.
  destruct (r_team r), (r_p10 r), (r_p20 r), (r_p30 r); split;
    try discriminate; reflexivity.
Qed.

Lemma print_rows_all (results : list stat_row) :
  forallb row_complete results = true ->
  exists lines : list string,
    print_rows format_float results = (lines, true) /\
    length lines = length results.
Proof.
  induction results as [|r rest IH]; simpl; intros H.
  - exists []. now split.
  - apply andb_prop in H. destruct H as [Hr Hrest].
    apply format_row_complete in Hr. destruct Hr as [line ->].
    destruct (IH Hrest) as (lines & -> & Hl).
    exists (line :: lines). split; [reflexivity | simpl; now rewrite Hl].
Qed.

Lemma print_rows_stops (pre post : list stat_row) (r : stat_row) :
  forallb row_complete pre = true -> row_complete r = false ->
  exists lines : list string,
    print_rows format_float (pre ++ r :: post) = (lines, false) /\
    length lines = length pre.
Proof.
  intros Hpre Hr. induction pre as [|a pre IH]; simpl.
  - apply format_row_incomplete in Hr. rewrite Hr. exists []. now split.
  - simpl in Hpre. apply andb_prop in Hpre. destruct Hpre as [Ha Hpre].
    apply format_row_complete in Ha. destruct Ha as [line ->].
    destruct (IH Hpre) as (lines & -> & Hl).
    exists (line :: lines). split; [reflexivity | simpl; now rewrite Hl].
Qed.


End SinkFacts.


(** A cell written once holds the value of the call that writes it. *)
Lemma written_at_unique (calls : list write_call) (row col : Z) (v : py_value) :
  NoDup (map call_cell calls) -> In (row, col, v) calls ->
  written_at calls row col = Some v.
Proof.
  unfold written_at.
  induction calls as [|[[r c] w] calls IH]; intros Hn Hin; [contradiction|].
  simpl in Hn. inversion Hn as [|? ? Hnot Hn']; subst.
  simpl. destruct ((r =? row)%Z && (c =? col)%Z) eqn:E.
  - apply andb_prop in E. destruct E as [Er Ec].
    apply Z.eqb_eq in Er, Ec. subst r c.
    destruct Hin as [Hin|Hin]; [now injection Hin as -> |].
    exfalso. apply Hnot. apply in_map_iff. now exists (row, col, v).
  - destruct Hin as [Hin|Hin]; [|now apply IH].
    injection Hin as -> -> ->. rewrite !Z.eqb_refl in E. discriminate.
Qed.

Lemma written_at_none (calls : list write_call) (row col : Z) :
  written_at calls row col = None <-> ~ In (row, col) (map call_cell calls).
Proof.
  unfold written_at. split.
  - intros H Hin. apply in_map_iff in Hin. destruct Hin as ([[r c] v] & E & Hin).
    unfold call_cell in E. simpl in E. injection E as -> ->.
    destruct (find _ calls) eqn:F; [discriminate|].
    pose proof (find_none _ _ F _ Hin) as Hf. simpl in Hf.
    rewrite !Z.eqb_refl in Hf. discriminate.
  - intros Hnot. destruct (find _ calls) as [[[r c] v]|] eqn:F; [|reflexivity].
    exfalso. apply find_some in F. destruct F as [Hin E]. simpl in E.
    apply andb_prop in E. destruct E as [Er Ec].
    apply Z.eqb_eq in Er, Ec. subst r c.
    apply Hnot. apply in_map_iff. now exists (row, col, v).
Qed.

Section WorksheetFacts.
Variable py_round : R -> Z -> R.

Local Abbreviation export' := (export py_round).

Lemma write_rows_cells (results : list stat_row) :
  forall start : nat,
    map call_cell (write_rows py_round (Z.of_nat start) results) =
    flat_map (fun r => map (fun c => (Z.of_nat r, Z.of_nat c)) (seq 0 9))
             (seq start (length results)).
Proof.
  induction results as [|r rest IH]; intros start; [reflexivity|].
  cbn [write_rows length seq flat_map]. rewrite map_app.
  replace (Z.of_nat start + 1)%Z with (Z.of_nat (S start)) by lia.
  rewrite IH. reflexivity.
Qed.

Lemma export_cells (results : list stat_row) :
  map call_cell (export' results) = grid (S (length results)) 9.
Proof.
  unfold export. rewrite map_app.
  change 1%Z with (Z.of_nat 1). rewrite write_rows_cells. reflexivity.
Qed.

Lemma In_write_rows (results : list stat_row) :
  forall (start : Z) (i : nat) (r : stat_row) (c : write_call),
    nth_error results i = Some r ->
    In c (write_row py_round (start + Z.of_nat i) r) ->
    In c (write_rows py_round start results).
Proof.
  induction results as [|a rest IH]; intros start i r c Hn Hin.
  - destruct i; discriminate.
  - cbn [write_rows]. apply in_or_app. destruct i as [|i].
    + injection Hn as ->. left.
      replace (start + Z.of_nat 0)%Z with start in Hin by lia. exact Hin.
    + right. apply (IH (start + 1)%Z i r c Hn).
      replace (start + 1 + Z.of_nat i)%Z with (start + Z.of_nat (S i))%Z
        by lia.
      exact Hin.
Qed.

Lemma In_write_row (row : Z) (r : stat_row) (c : nat) (v : py_value) :
  nth_error (row_values py_round r) c = Some v ->
  In (row, Z.of_nat c, v) (write_row py_round row r).
Proof.
  intros H. unfold write_row.
  do 9 (destruct c as [|c]; [injection H as <-; simpl; tauto|]).
  destruct c; discriminate.
Qed.

(** X16. The worksheet gets one call for each cell of the rows [0 .. N]
    and the columns [0 .. 8], row after row and no cell twice, where [N]
    is the number of rows of the report: the row 0 holds the nine headers
    and the row [i+1] holds the values of the [i]-th row of the report, in
    the order of the columns; no other cell is written. *)
Theorem worksheet_cells (results : list stat_row) :
  map call_cell (export' results) = grid (S (length results)) 9 /\
  NoDup (map call_cell (export' results)) /\
  length (export' results) = (9 * (length results + 1))%nat /\
  (forall (c : nat) (h : string),
     nth_error headers c = Some h ->
     written_at (export' results) 0 (Z.of_nat c) = Some (PyStr h)) /\
  (forall (i c : nat) (r : stat_row) (v : py_value),
     nth_error results i = Some r ->
     nth_error (row_values py_round r) c = Some v ->
     written_at (export' results) (Z.of_nat i + 1) (Z.of_nat c) = Some v) /\
  (forall row col : Z,
     written_at (export' results) row col = None <->
     ~ (0 <= row <= Z.of_nat (length results) /\ 0 <= col < 9)%Z).
Proof.
  assert (Hn : NoDup (map call_cell (export' results)))
    by (rewrite export_cells; apply NoDup_grid).
  split; [apply export_cells|]. split; [exact Hn|]. split; [|split; [|split]].
  - unfold export. rewrite length_app, length_map. simpl length at 1.
    assert (L : forall l s, length (write_rows py_round s l)
                            = (9 * length l)%nat).
    { induction l as [|a l IH]; intros s; simpl; [reflexivity|].
      rewrite IH. lia. }
    rewrite L. lia.
  - intros c h Hc. apply written_at_unique; [exact Hn|].
    unfold export. apply in_or_app. left. unfold headers in *.
    do 9 (destruct c as [|c]; [injection Hc as <-; simpl; tauto|]).
    destruct c; discriminate.
  - intros i c r v Hr Hv. apply written_at_unique; [exact Hn|].
    unfold export. apply in_or_app. right.
    apply (In_write_rows results 1 i r); [exact Hr|].
    replace (1 + Z.of_nat i)%Z with (Z.of_nat i + 1)%Z by lia.
    now apply In_write_row.
  - intros row col. rewrite written_at_none, export_cells, In_grid.
    split; intros H H'; apply H; lia.
Qed.

End WorksheetFacts.

Lemma worksheet_cells_witness :
  let r := mk_row "Trae Young" (Some "ATL"%string) 30 0 0
                  (Some 30) (Some 30) (Some 30) 1 in
  written_at (export (fun x _ => x) [r]) 0 3 = Some (PyStr "Std Dev") /\
  written_at (export (fun x _ => x) [r]) 1 8 = Some (PyInt 1).
Proof.
  intros r.
  destruct (worksheet_cells (fun x _ => x) [r]) as (_ & _ & _ & H0 & H1 & _).
  split.
  - apply (H0 3%nat). reflexivity.
  - apply (H1 0%nat 8%nat r). reflexivity. reflexivity.
Defined.

Lemma In_write_rows_inv (py_round : R -> Z -> R) (results : list stat_row) :
  forall (start : Z) (c : write_call),
    In c (write_rows py_round start results) ->
    exists (r : stat_row) (row : Z),
      In r results /\ In c (write_row py_round row r).
Proof.
  induction results as [|a rest IH]; intros start c Hin; [contradiction|].
  cbn [write_rows] in Hin. apply in_app_or in Hin. destruct Hin as [Hin|Hin].
  - exists a, start. split; [now left | exact Hin].
  - destruct (IH _ _ Hin) as (r & row & Hr & Hc).
    exists r, row. split; [now right | exact Hc].
Qed.

Lemma write_row_no_None (py_round : R -> Z -> R) (row : Z) (r : stat_row)
  (c : write_call) :
  row_complete r = true -> In c (write_row py_round row r) -> snd c <> PyNone.
Proof.
  unfold row_complete, write_row. intros H Hin.
  destruct (r_team r), (r_p10 r), (r_p20 r), (r_p30 r); try discriminate.
  simpl in Hin.
  repeat (destruct Hin as [<-|Hin]; [simpl; discriminate|]).
  contradiction.
Qed.

Lemma StronglySorted_nth_error {A : Type} (Rel : A -> A -> Prop) (l : list A) :
  StronglySorted Rel l ->
  forall (i j : nat) (a b : A),
    (i < j)%nat -> nth_error l i = Some a -> nth_error l j = Some b ->
    Rel a b.
Proof.
  induction 1 as [|x l HS IH Hall]; intros i j a b Hij Ha Hb.
  - destruct i; discriminate.
  - destruct j as [|j]; [lia|]. simpl in Hb. destruct i as [|i].
    + injection Ha as <-. rewrite Forall_forall in Hall.
      apply Hall. eapply nth_error_In. exact Hb.
    + simpl in Ha. apply (IH i j); (assumption || lia).
Qed.

Section RunSinkFacts.
Variable format_float : R -> nat -> nat -> string.
Variable py_round : R -> Z -> R.
Variable py_float : string -> option R.
Variable strptime : string -> string -> option datetime.


End RunSinkFacts.


(** * One row at a time *)

Section RowFacts.
Variable py_float : string -> option R.
Variable strptime : string -> string -> option datetime.


End RowFacts.


Lemma aggregation_of_valid_rows_witness :
  records_of_directory example_float example_strptime
    [("ATLX.txt"%string, [example_row "Nobody" "50" "01/01/2024" "ATL"])] = [].
Proof.
  apply (proj2 (proj2 (proj2 (proj2
           (aggregation_of_valid_rows example_float example_strptime []))))).
  reflexivity.
Defined.


Lemma every_record_counted_once_witness :
  total_games (parse_all_team_files example_float example_strptime
                 example_directory) = 3%nat.
Proof.
  rewrite (proj1 (every_record_counted_once example_float example_strptime
                    example_directory)).
  reflexivity.
Defined.
